(** * Airfoil geometry pipeline: generator, CSV extractor, normalizer, serializer

    A shallow embedding of
      - [src/airfoil-backend/src/naca_generator.py]  (module [NacaGenerator]),
      - [src/airfoil-backend/src/csv_processor.py]   (module [CsvProcessor]),
      - [src/airfoil-backend/src/routes/airfoil.py]  (module [Routes]),
    preceded by the small part of the Python runtime these files rely on
    (module [Py]): exceptions, [str] methods, [int()], [float()], f-string
    fixed-point formatting, list sorting and a few numpy reductions.

    Numbers.  In the CSV processor and the serializer a Python [float] is a
    [float64]: a finite value, an infinity or NaN, with the IEEE rules for
    the infinities and NaN in [<], [-], [/], [abs] and the numpy reductions.
    A finite value is an exact rational kept in lowest terms: rounding to
    53 bits and the sign of zero are not modelled.  In the generator, whose
    inputs are digits and whose formulas need [sqrt], [cos], [sin] and
    [arctan], a [float] is a real ([R]).

    Text.  A Python [str] is modelled by a Rocq [string]; its characters are
    read as code points below 256. *)

From Stdlib Require Import ZArith QArith Qabs Reals Lra Lia.
From Stdlib Require Import List String Ascii Bool Permutation Sorted DecimalString.
From stdpp Require Import gmap strings.
Import ListNotations.

Local Open Scope string_scope.
Local Open Scope list_scope.

(* ================================================================== *)
(** * The Python runtime used by the sources *)
(* ================================================================== *)

Module Py.

(** ** Exceptions *)

Inductive exn_class := ValueError | OSError | IndexError.

Record exn := Exn { exn_cls : exn_class; exn_msg : string }.

(** [str(e)] *)
Definition str (e : exn) : string := exn_msg e.

Inductive result (A : Type) : Type :=
| Ok (a : A)
| Raise (e : exn).
Arguments Ok {A} a.
Arguments Raise {A} e.

Definition bind {A B} (m : result A) (k : A -> result B) : result B :=
  match m with
  | Ok a => k a
  | Raise e => Raise e
  end.

Notation "'let*' x ':=' m 'in' k" := (bind m (fun x => k))
  (at level 10, x pattern, m at level 100, k at level 200).

Definition exn_class_eqb (a b : exn_class) : bool :=
  match a, b with
  | ValueError, ValueError | OSError, OSError | IndexError, IndexError => true
  | _, _ => false
  end.

(** [try: body / except cls: handler] *)
Definition try_except {A} (body : result A) (cls : exn_class)
    (handler : exn -> result A) : result A :=
  match body with
  | Ok a => Ok a
  | Raise e => if exn_class_eqb (exn_cls e) cls then handler e else Raise e
  end.

(** [try: body / except Exception as e: handler] *)
Definition try_except_Exception {A} (body : result A)
    (handler : exn -> result A) : result A :=
  match body with
  | Ok a => Ok a
  | Raise e => handler e
  end.

(** ** Characters *)

Definition ord (c : ascii) : N := N_of_ascii c.

Definition between (lo hi n : N) : bool := (lo <=? n)%N && (n <=? hi)%N.

(** [c.isspace()] *)
Definition isspace (c : ascii) : bool :=
  let n := ord c in
  between 9 13 n || between 28 32 n || (n =? 133)%N || (n =? 160)%N.

(** the ASCII decimal digits, the ones [int()] and [float()] read *)
Definition isdecimal (c : ascii) : bool := between 48 57 (ord c).

(** [c.isdigit()]: the decimal digits and the superscripts two, three, one *)
Definition isdigit_char (c : ascii) : bool :=
  let n := ord c in
  isdecimal c || (n =? 178)%N || (n =? 179)%N || (n =? 185)%N.

Definition digit_value (c : ascii) : Z := Z.of_N (ord c) - 48.

(** [c.lower()] *)
Definition lower_char (c : ascii) : ascii :=
  let n := ord c in
  if between 65 90 n || between 192 214 n || between 216 222 n
  then ascii_of_N (n + 32) else c.

(** ** [str] methods *)

Fixpoint lower (s : string) : string :=
  match s with
  | EmptyString => EmptyString
  | String c s' => String (lower_char c) (lower s')
  end.

Fixpoint lstrip (s : string) : string :=
  match s with
  | EmptyString => EmptyString
  | String c s' => if isspace c then lstrip s' else s
  end.

Fixpoint rstrip (s : string) : string :=
  match s with
  | EmptyString => EmptyString
  | String c s' =>
      match rstrip s' with
      | EmptyString => if isspace c then EmptyString else String c EmptyString
      | r => String c r
      end
  end.

(** [s.strip()] *)
Definition strip (s : string) : string := rstrip (lstrip s).

(** [s.startswith(p)] *)
Definition startswith (s p : string) : bool := String.prefix p s.

(** [sub in s] *)
Fixpoint contains (sub s : string) : bool :=
  String.prefix sub s ||
  match s with
  | EmptyString => false
  | String _ s' => contains sub s'
  end.

(** [s.split(sep)] for a one-character separator *)
Fixpoint split (sep : ascii) (s : string) : list string :=
  match s with
  | EmptyString => [EmptyString]
  | String c s' =>
      if Ascii.eqb c sep then EmptyString :: split sep s'
      else match split sep s' with
           | h :: t => String c h :: t
           | [] => [String c EmptyString]
           end
  end.

(** [s.split(sep, maxsplit)] for a one-character separator *)
Fixpoint split_max (sep : ascii) (s : string) (maxsplit : nat) : list string :=
  match s with
  | EmptyString => [EmptyString]
  | String c s' =>
      match maxsplit with
      | O => [s]
      | S m =>
          if Ascii.eqb c sep then EmptyString :: split_max sep s' m
          else match split_max sep s' maxsplit with
               | h :: t => String c h :: t
               | [] => [String c EmptyString]
               end
      end
  end.

(** [sep.join(parts)] *)
Definition join (sep : string) (parts : list string) : string :=
  String.concat sep parts.

Fixpoint all_chars (p : ascii -> bool) (s : string) : bool :=
  match s with
  | EmptyString => true
  | String c s' => p c && all_chars p s'
  end.

(** [s.isdigit()] *)
Definition isdigit (s : string) : bool :=
  negb (s =? "")%string && all_chars isdigit_char s.

(** truthiness of a [str] *)
Definition nonempty (s : string) : bool := negb (s =? "")%string.

(** [l[i]] *)
Definition getitem {A} (l : list A) (i : nat) : result A :=
  match nth_error l i with
  | Some a => Ok a
  | None => Raise (Exn IndexError "list index out of range")
  end.

(** [s[i]], a one-character string *)
Definition str_getitem (s : string) (i : nat) : result string :=
  match String.get i s with
  | Some c => Ok (String c EmptyString)
  | None => Raise (Exn IndexError "string index out of range")
  end.

(** [s[i:j]] for literal bounds [0 <= i <= j] *)
Definition str_slice (s : string) (i j : nat) : string :=
  String.substring i (j - i) s.

(** ** Numeric literals: [int(s)] and [float(s)] *)

(** [digit (["_"] digit)*]: the digits read, most significant first, and the
    text that follows them. *)
Fixpoint digitpart (s : string) : list Z * string :=
  match s with
  | EmptyString => ([], EmptyString)
  | String c s' =>
      if isdecimal c then
        match s' with
        | String "_" (String d _ as s'') =>
            if isdecimal d
            then let (ds, r) := digitpart s'' in (digit_value c :: ds, r)
            else ([digit_value c], s')
        | _ => let (ds, r) := digitpart s' in (digit_value c :: ds, r)
        end
      else ([], s)
  end.

Definition digits_value (ds : list Z) : Z :=
  fold_left (fun acc d => 10 * acc + d)%Z ds 0%Z.

(** an optional sign: [true] for "-" *)
Definition sign (s : string) : bool * string :=
  match s with
  | String "-" s' => (true, s')
  | String "+" s' => (false, s')
  | _ => (false, s)
  end.

Definition quote (s : string) : string := "'" ++ s ++ "'".

(** [int(s)], base 10 *)
Definition int (s : string) : result Z :=
  let (neg, body) := sign (strip s) in
  match digitpart body with
  | ((_ :: _) as ds, EmptyString) =>
      Ok (if neg then - digits_value ds else digits_value ds)%Z
  | _ => Raise (Exn ValueError
                 ("invalid literal for int() with base 10: " ++ quote s))
  end.

(** the exponent of a float literal: [("e"|"E") ["+"|"-"] digitpart] up to
    the end of the text, or nothing *)
Definition exponent (s : string) : option Z :=
  match s with
  | EmptyString => Some 0%Z
  | String c s' =>
      if Ascii.eqb (lower_char c) "e" then
        let (neg, body) := sign s' in
        match digitpart body with
        | ((_ :: _) as ds, EmptyString) =>
            Some (if neg then - digits_value ds else digits_value ds)%Z
        | _ => None
        end
      else None
  end.

Definition pow10 (e : Z) : Q :=
  match e with
  | Z0 => 1
  | Zpos p => inject_Z (Z.pow_pos 10 p)
  | Zneg p => 1 # (Pos.pow 10 p)
  end.

(** ** Floats *)

(** A Python [float], which is also what a numpy [float64] array holds. *)
Inductive float64 : Type :=
| finite (q : Q)
| pos_inf
| neg_inf
| nan.

Definition isnan (x : float64) : bool :=
  match x with
  | nan => true
  | _ => false
  end.

Definition Qltb (a b : Q) : bool :=
  match (a ?= b)%Q with Lt => true | _ => false end.

(** [a < b]; [a > b] is [b < a].  Every comparison with NaN is false. *)
Definition fltb (a b : float64) : bool :=
  match a, b with
  | nan, _ | _, nan => false
  | finite p, finite q => Qltb p q
  | neg_inf, neg_inf => false
  | neg_inf, _ => true
  | _, neg_inf => false
  | pos_inf, _ => false
  | finite _, pos_inf => true
  end.

(** [a - b] *)
Definition fsub (a b : float64) : float64 :=
  match a, b with
  | nan, _ | _, nan => nan
  | finite p, finite q => finite (Qred (p - q))
  | finite _, pos_inf => neg_inf
  | finite _, neg_inf => pos_inf
  | pos_inf, pos_inf => nan
  | pos_inf, _ => pos_inf
  | neg_inf, neg_inf => nan
  | neg_inf, _ => neg_inf
  end.

(** [abs(a)] *)
Definition fabs (a : float64) : float64 :=
  match a with
  | finite p => finite (Qabs p)
  | pos_inf | neg_inf => pos_inf
  | nan => nan
  end.

(** [a / b] on numpy floats, which raises nothing: a division by zero
    gives an infinity, or NaN for [0 / 0] (the zero taken as positive). *)
Definition truediv (a b : float64) : float64 :=
  match a, b with
  | nan, _ | _, nan => nan
  | finite p, finite q =>
      if Qeq_bool q 0 then
        if Qeq_bool p 0 then nan else if Qltb p 0 then neg_inf else pos_inf
      else finite (Qred (p / q))
  | finite _, _ => finite 0
  | pos_inf, finite q => if Qltb q 0 then neg_inf else pos_inf
  | neg_inf, finite q => if Qltb q 0 then pos_inf else neg_inf
  | _, _ => nan
  end.

(** the least magnitude that rounds to an infinity: [2^1024 - 2^970] *)
Definition overflow_threshold : Q := inject_Z (2 ^ 1024 - 2 ^ 970).

(** [float(s)]: [[sign] ("inf" | "infinity" | "nan")] in any letter case, or
    a decimal literal
    [[sign] (digitpart ["." [digitpart]] | "." digitpart) [exponent]],
    read as its exact value and as an infinity from [overflow_threshold]
    on. *)
Definition float (s : string) : result float64 :=
  let fail := Raise (Exn ValueError
                       ("could not convert string to float: " ++ quote s)) in
  let (neg, body) := sign (strip s) in
  if (lower body =? "inf")%string || (lower body =? "infinity")%string
  then Ok (if neg then neg_inf else pos_inf)
  else if (lower body =? "nan")%string then Ok nan
  else
    let (ip, r1) := digitpart body in
    let '(fp, r2) :=
      match r1 with
      | String "." r => digitpart r
      | _ => ([], r1)
      end in
    match ip ++ fp, exponent r2 with
    | (_ :: _) as ds, Some e =>
        let mant := inject_Z (digits_value ds) in
        let v := (mant * pow10 (e - Z.of_nat (List.length fp)))%Q in
        if Qle_bool overflow_threshold v
        then Ok (if neg then neg_inf else pos_inf)
        else Ok (finite (Qred (if neg then - v else v)%Q))
    | _, _ => fail
    end.

(** ** Fixed-point formatting: [f"{x:.6f}"] *)

Definition newline : string := String (ascii_of_nat 10) EmptyString.

(** [n / d] rounded to the nearest integer, ties to even ([0 <= n], [0 < d]) *)
Definition round_half_even (n d : Z) : Z :=
  let q := (n / d)%Z in
  let r := (n mod d)%Z in
  if (d <? 2 * r)%Z || ((d =? 2 * r)%Z && Z.odd q) then (q + 1)%Z else q.

Definition decimal (n : Z) : string :=
  NilZero.string_of_uint (N.to_uint (Z.to_N n)).

(** [str(n)] for an [int] *)
Definition str_int (n : Z) : string :=
  if (n <? 0)%Z then "-" ++ decimal (- n) else decimal n.

Fixpoint zeros (n : nat) : string :=
  match n with
  | O => EmptyString
  | S n' => String "0" (zeros n')
  end.

Definition zfill (width : nat) (s : string) : string :=
  zeros (width - String.length s) ++ s.

(** a finite value in fixed-point notation: the exact value rounded
    half-even to [prec] decimals, a "-" sign for every negative [x] *)
Definition format_fixed (prec : nat) (x : Q) : string :=
  let scale := (10 ^ Z.of_nat prec)%Z in
  let r := round_half_even (Z.abs (Qnum x) * scale) (Zpos (Qden x)) in
  (if (Qnum x <? 0)%Z then "-" else "") ++
  decimal (r / scale) ++
  (if Nat.eqb prec 0 then "" else "." ++ zfill prec (decimal (r mod scale))).

(** [format(x, ".{prec}f")] *)
Definition format_f (prec : nat) (x : float64) : string :=
  match x with
  | finite q => format_fixed prec q
  | pos_inf => "inf"
  | neg_inf => "-inf"
  | nan => "nan"
  end.

(** ** Sorting and numpy reductions on floats *)

Section Sort.
Context {A : Type}.
Variable key : A -> float64.
Variable reverse : bool.

(** [y] has to stay in front of [x] *)
Definition precedes (y x : A) : bool :=
  if reverse then fltb (key x) (key y) else fltb (key y) (key x).

Fixpoint insert (x : A) (l : list A) : list A :=
  match l with
  | [] => [x]
  | y :: l' => if precedes y x then y :: insert x l' else x :: l
  end.

(** [l.sort(key=key, reverse=reverse)]: a stable sort, elements of equal
    key keep their order, also under [reverse=True].  This is the result of
    [list.sort] whenever no key is NaN.  With a NaN key [<] is no order and
    the arrangement [list.sort] ends with depends on its merge strategy:
    [sort] then gives one rearrangement of the list, not necessarily that
    one. *)
Definition sort (l : list A) : list A := fold_right insert [] l.
End Sort.

(** the larger of two values, NaN if one of them is NaN *)
Definition maximum (m v : float64) : float64 :=
  if isnan m then m else if isnan v then v else if fltb m v then v else m.

(** [np.max(a)] *)
Definition np_max (a : list float64) : result float64 :=
  match a with
  | [] => Raise (Exn ValueError
      "zero-size array to reduction operation maximum which has no identity")
  | x :: a' => Ok (fold_left maximum a' x)
  end.

(** index of the first element that no other element is [better] than *)
Fixpoint arg_best (better : float64 -> float64 -> bool) (a : list float64)
    (i : nat) (best : nat * float64) : nat :=
  match a with
  | [] => fst best
  | v :: a' =>
      arg_best better a' (S i) (if better v (snd best) then (i, v) else best)
  end.

(** [np.argmin(a)]: the first NaN, or else the first least element *)
Definition np_argmin (a : list float64) : result nat :=
  match a with
  | [] => Raise (Exn ValueError "attempt to get argmin of an empty sequence")
  | x :: a' =>
      Ok (arg_best (fun v m => negb (isnan m) && (isnan v || fltb v m))
            a' 1 (O, x))
  end.

(** [np.argmax(a)]: the first NaN, or else the first greatest element *)
Definition np_argmax (a : list float64) : result nat :=
  match a with
  | [] => Raise (Exn ValueError "attempt to get argmax of an empty sequence")
  | x :: a' =>
      Ok (arg_best (fun v m => negb (isnan m) && (isnan v || fltb m v))
            a' 1 (O, x))
  end.

(** element-wise binary operation on two arrays of one shape *)
Fixpoint map2 {A B C} (f : A -> B -> C) (a : list A) (b : list B) : list C :=
  match a, b with
  | x :: a', y :: b' => f x y :: map2 f a' b'
  | _, _ => []
  end.

(** [enumerate(l)] *)
Definition enumerate {A} (l : list A) : list (nat * A) :=
  combine (seq 0 (List.length l)) l.

(** ** Files *)

(** The files: the text of every file that can be read, and, for every path
    that cannot be opened for writing (a missing directory, a directory, a
    lack of permission), the exception [open(path, 'w')] raises. *)
Record files := Files {
  texts : gmap string string;
  write_errors : gmap string exn
}.

(** [with open(path, 'r') as f: f.read()] *)
Definition read_file (fs : files) (path : string) : result string :=
  match texts fs !! path with
  | Some content => Ok content
  | None => Raise (Exn OSError
                     ("[Errno 2] No such file or directory: " ++ quote path))
  end.

(** [with open(path, 'w') as f: f.write(content)]: the files afterwards *)
Definition write_file (fs : files) (path content : string) : result files :=
  if (path =? "")%string
  then Raise (Exn OSError "[Errno 2] No such file or directory: ''")
  else match write_errors fs !! path with
       | Some e => Raise e
       | None => Ok (Files (<[path := content]> (texts fs)) (write_errors fs))
       end.

End Py.

(* ================================================================== *)
(** * naca_generator.py *)
(* ================================================================== *)

Module NacaGenerator.
Import Py.

Definition Rleb (a b : R) : bool := if Rle_dec a b then true else false.
Definition Rltb (a b : R) : bool := if Rlt_dec a b then true else false.

(** [np.linspace(start, stop, num)] *)
Definition linspace (start stop : R) (num : Z) : result (list R) :=
  if (num <? 0)%Z then
    Raise (Exn ValueError
      ("Number of samples, " ++ str_int num ++ ", must be non-negative."))
  else
    let div := (num - 1)%Z in
    let delta := (stop - start)%R in
    let y := map (fun i => IZR (Z.of_nat i)) (seq 0 (Z.to_nat num)) in
    let y := if (0 <? div)%Z
             then map (fun v => v * (delta / IZR div))%R y
             else map (fun v => v * delta)%R y in
    let y := map (fun v => v + start)%R y in
    Ok (if (1 <? num)%Z then removelast y ++ [stop] else y).

(** [np.zeros_like(a)] *)
Definition zeros_like (a : list R) : list R := map (fun _ => 0%R) a.

(** [arr[mask] = values], [values] given at every position of [arr] *)
Fixpoint assign_masked (mask : list bool) (values arr : list R) : list R :=
  match mask, values, arr with
  | b :: mask', v :: values', a :: arr' =>
      (if b then v else a) :: assign_masked mask' values' arr'
  | _, _, _ => arr
  end.

(** the chordwise stations: cosine spacing over [num_points] angles *)
Definition stations (num_points : Z) : result (list R) :=
  let* beta := linspace 0 PI num_points in
  Ok (map (fun b => 0.5 * (1 - cos b))%R beta).

(** the thickness distribution at one station *)
Definition yt (t x : R) : R :=
  (5 * t * (0.2969 * sqrt x - 0.1260 * x - 0.3516 * x ^ 2
            + 0.2843 * x ^ 3 - 0.1015 * x ^ 4))%R.

(** the camber line [yc] and its slope [dyc_dx] at the stations [x] *)
Definition camber (m p : R) (x : list R) : list R * list R :=
  let yc := zeros_like x in
  let dyc_dx := zeros_like x in
  if Rltb 0 m && Rltb 0 p then
    let mask1 := map (fun v => Rleb v p) x in
    let yc := assign_masked mask1
                (map (fun v => (m / p ^ 2) * (2 * p * v - v ^ 2))%R x) yc in
    let dyc_dx := assign_masked mask1
                (map (fun v => (2 * m / p ^ 2) * (p - v))%R x) dyc_dx in
    let mask2 := map (fun v => Rltb p v) x in
    let yc := assign_masked mask2
                (map (fun v => (m / (1 - p) ^ 2)
                               * ((1 - 2 * p) + 2 * p * v - v ^ 2))%R x) yc in
    let dyc_dx := assign_masked mask2
                (map (fun v => (2 * m / (1 - p) ^ 2) * (p - v))%R x) dyc_dx in
    (yc, dyc_dx)
  else (yc, dyc_dx).

(** the upper surface [(xu, yu)] (lines 54-55) *)
Definition upper_surface (x yt yc theta : list R) : list R * list R :=
  (map2 Rminus x (map2 Rmult yt (map sin theta)),
   map2 Rplus yc (map2 Rmult yt (map cos theta))).

(** the lower surface [(xl, yl)] (lines 58-59) *)
Definition lower_surface (x yt yc theta : list R) : list R * list R :=
  (map2 Rplus x (map2 Rmult yt (map sin theta)),
   map2 Rminus yc (map2 Rmult yt (map cos theta))).

(** the parameters [m], [p], [t] read off the code (lines 24-26) *)
Definition naca_parameters (naca_code : string) : result (R * R * R) :=
  let* c0 := str_getitem naca_code 0 in
  let* i0 := int c0 in
  let m := (IZR i0 / 100)%R in
  let* c1 := str_getitem naca_code 1 in
  let* i1 := int c1 in
  let p := (IZR i1 / 10)%R in
  let* i2 := int (str_slice naca_code 2 4) in
  let t := (IZR i2 / 100)%R in
  Ok (m, p, t).

(** both surfaces at the stations [x], as lines 33-59 compute them *)
Definition surfaces (m p t : R) (x : list R)
    : (list R * list R) * (list R * list R) :=
  let yt := map (yt t) x in
  let '(yc, dyc_dx) := camber m p x in
  let theta := map atan dyc_dx in
  (upper_surface x yt yc theta, lower_surface x yt yc theta).

(** a code the generator accepts and reads: four decimal digits *)
Definition valid_code (naca_code : string) : Prop :=
  String.length naca_code = 4%nat /\ all_chars isdecimal naca_code = true.

Section Generate.
(** [format(v, ".{n}f")] on the generator's floats *)
Variable format_f : nat -> R -> string.

Definition generate_naca_4digit (naca_code : string) (num_points : Z)
    : result (list R * list R * string) :=
  if negb (Nat.eqb (String.length naca_code) 4) || negb (isdigit naca_code)
  then Raise (Exn ValueError "NACA code must be a 4-digit string")
  else
    let* (m, p, t) := naca_parameters naca_code in
    let* x := stations num_points in
    let yt := map (yt t) x in
    let '(yc, dyc_dx) := camber m p x in
    let theta := map atan dyc_dx in
    let '(xu, yu) := upper_surface x yt yc theta in
    let '(xl, yl) := lower_surface x yt yc theta in
    let x_upper := rev xu in
    let y_upper := rev yu in
    let x_lower := tl xl in
    let y_lower := tl yl in
    let x_coords := x_upper ++ x_lower in
    let y_coords := y_upper ++ y_lower in
    let header_info :=
      ("NACA " ++ naca_code ++ " Airfoil M=" ++ format_f 1 (m * 100)%R
       ++ "% P=" ++ format_f 1 (p * 100)%R
       ++ "% T=" ++ format_f 1 (t * 100)%R ++ "%")%string in
    Ok (x_coords, y_coords, header_info).
End Generate.

Section Format.
Context {float : Type}.
(** [format(v, ".{n}f")] on the floats of the coordinate arrays *)
Variable format_f : nat -> float -> string.

Definition standard_line (pt : float * float) : string :=
  ("  " ++ format_f 6 (fst pt) ++ "  " ++ format_f 6 (snd pt))%string.

Definition solidworks_line (pt : float * float) : string :=
  (format_f 6 (fst pt) ++ " " ++ format_f 6 (snd pt) ++ " 0.000000")%string.

Definition format_airfoil_txt (x_coords y_coords : list float)
    (header_info : string) (solidworks_format : bool) : string :=
  let lines :=
    if negb solidworks_format
    then [header_info] ++ map standard_line (combine x_coords y_coords)
    else map solidworks_line (combine x_coords y_coords) in
  join newline lines.
End Format.

Section Save.
Context {float : Type}.
(** [format(v, ".{n}f")] on the floats of the coordinate arrays *)
Variable format_f : nat -> float -> string.

End Save.

End NacaGenerator.

(* ================================================================== *)
(** * csv_processor.py *)
(* ================================================================== *)

Module CsvProcessor.
Import Py.

(** the values [coordinate_section] takes besides [None] *)
Inductive section := surface | camber | chord.

Definition section_eqb (a b : section) : bool :=
  match a, b with
  | surface, surface | camber, camber | chord, chord => true
  | _, _ => false
  end.

(** [coordinate_section == 'surface'] *)
Definition is_surface (s : option section) : bool :=
  match s with
  | Some s => section_eqb s surface
  | None => false
  end.

(** the variables of [parse_airfoil_csv] that live across loop iterations *)
Record locals := Locals {
  airfoil_name : string;
  metadata : gmap string string;
  coordinate_data : list (float64 * float64);
  in_coordinates : bool;
  coordinate_section : option section;
  found_header : bool
}.

Definition initial : locals :=
  Locals "Unknown Airfoil" ∅ [] false None false.

Definition set_airfoil_name (v : string) (st : locals) : locals :=
  Locals v (metadata st) (coordinate_data st) (in_coordinates st)
         (coordinate_section st) (found_header st).

Definition set_metadata (key value : string) (st : locals) : locals :=
  Locals (airfoil_name st) (<[key:=value]> (metadata st)) (coordinate_data st)
         (in_coordinates st) (coordinate_section st) (found_header st).

Definition append_coordinate (xy : float64 * float64) (st : locals)
    : locals :=
  Locals (airfoil_name st) (metadata st) (coordinate_data st ++ [xy])
         (in_coordinates st) (coordinate_section st) (found_header st).

Definition set_in_coordinates (v : bool) (st : locals) : locals :=
  Locals (airfoil_name st) (metadata st) (coordinate_data st) v
         (coordinate_section st) (found_header st).

Definition set_coordinate_section (v : section) (st : locals) : locals :=
  Locals (airfoil_name st) (metadata st) (coordinate_data st)
         (in_coordinates st) (Some v) (found_header st).

Definition set_found_header (v : bool) (st : locals) : locals :=
  Locals (airfoil_name st) (metadata st) (coordinate_data st)
         (in_coordinates st) (coordinate_section st) v.

(** [key in ['X(mm)', 'Y(mm)', 'X', 'Y']] *)
Definition is_column_label (key : string) : bool :=
  existsb (String.eqb key) ["X(mm)"; "Y(mm)"; "X"; "Y"].

Section Parse.
(** [float(s)] *)
Variable float : string -> result float64.
(** [open(path, 'r').read()] *)
Variable read_text : string -> result string.

(** the [try] block of the coordinate rows (lines 85-91) *)
Definition parse_row (parts : list string) (st : locals) : result locals :=
  let* p0 := getitem parts 0 in
  let x_str := strip p0 in
  let* p1 := getitem parts 1 in
  let y_str := strip p1 in
  if nonempty x_str && nonempty y_str
     && negb (contains "X(" x_str || contains "Y(" x_str)
  then
    let* x := float x_str in
    let* y := float y_str in
    Ok (append_coordinate (x, y) st)
  else Ok st.

(** one iteration of the [for] loop; [Ok] is the state the next
    iteration starts from, whether by [continue] or by falling through *)
Definition loop_body (st : locals) (line : string) : result locals :=
  let line := strip line in
  if negb (nonempty line) || (line =? ",")%string then Ok st
  else if startswith line "Name," then
    let* name := getitem (split_max "," line 1) 1 in
    Ok (set_airfoil_name (strip name) st)
  else if contains "airfoil surface" (lower line)
          || startswith (lower line) "airfoil surface" then
    Ok (set_found_header true
          (set_in_coordinates false (set_coordinate_section surface st)))
  else if contains "camber line" (lower line) then
    Ok (set_in_coordinates false (set_coordinate_section camber st))
  else if contains "chord line" (lower line) then
    Ok (set_in_coordinates false (set_coordinate_section chord st))
  else if contains "," line && negb (in_coordinates st)
          && negb (found_header st) then
    let parts := split_max "," line 1 in
    if Nat.eqb (List.length parts) 2 then
      let* p0 := getitem parts 0 in
      let* p1 := getitem parts 1 in
      if nonempty p0 && nonempty p1 then
        let key := strip p0 in
        let value := strip p1 in
        if negb (is_column_label key)
           && negb (contains "surface" (lower key))
        then Ok (set_metadata key value st)
        else Ok st
      else Ok st
    else Ok st
  else if (contains "X(" line && contains "Y(" line)
          || (contains "x" (lower line) && contains "y" (lower line)) then
    if is_surface (coordinate_section st)
    then Ok (set_in_coordinates true st)
    else Ok st
  else if is_surface (coordinate_section st) && contains "," line then
    let parts := split "," line in
    if Nat.leb 2 (List.length parts)
    then try_except (parse_row parts st) ValueError (fun _ => Ok st)
    else Ok st
  else Ok st.

(** [for i, line in enumerate(lines): ...] *)
Fixpoint for_loop (lines : list string) (st : locals) : result locals :=
  match lines with
  | [] => Ok st
  | line :: lines' =>
      let* st' := loop_body st line in
      for_loop lines' st'
  end.

(** the body of the outer [try] (lines 20-109) *)
Definition parse_body (csv_file_path : string)
    : result (list float64 * list float64 * string * gmap string string) :=
  let* content := read_text csv_file_path in
  let lines := split (ascii_of_nat 10) (strip content) in
  let* st := for_loop lines initial in
  match coordinate_data st with
  | [] => Raise (Exn ValueError "No valid coordinate data found in CSV file")
  | _ :: _ =>
      let x_coords := map fst (coordinate_data st) in
      let y_coords := map snd (coordinate_data st) in
      let* max_x := np_max x_coords in
      let '(x_coords, y_coords) :=
        if fltb (finite 10) max_x
        then (map (fun x => truediv x max_x) x_coords,
              map (fun y => truediv y max_x) y_coords)
        else (x_coords, y_coords) in
      Ok (x_coords, y_coords, airfoil_name st, metadata st)
  end.

Definition parse_airfoil_csv (csv_file_path : string)
    : result (list float64 * list float64 * string * gmap string string) :=
  try_except_Exception (parse_body csv_file_path)
    (fun e => Raise (Exn ValueError ("Error parsing CSV file: " ++ str e))).
End Parse.

(** the loop that deals the points out to the two surfaces (lines 139-143) *)
Definition separate (coords : list (float64 * float64))
    : list (float64 * float64) * list (float64 * float64) :=
  fold_left
    (fun (acc : list (float64 * float64) * list (float64 * float64))
         (ic : nat * (float64 * float64)) =>
       if Nat.leb (fst ic) (List.length coords / 2)
       then (fst acc ++ [snd ic], snd acc)
       else (fst acc, snd acc ++ [snd ic]))
    (enumerate coords) ([], []).

(** the removal of the duplicate leading-edge point (lines 152-154) *)
Definition drop_duplicate
    (upper_surface lower_surface : list (float64 * float64))
    : list (float64 * float64) :=
  match lower_surface, rev upper_surface with
  | lower0 :: rest, upper_last :: _ =>
      if fltb (fabs (fsub (fst lower0) (fst upper_last)))
           (finite (1 # 1000000))
      then rest else lower_surface
  | _, _ => lower_surface
  end.

Definition process_coordinates_for_output (x_coords y_coords : list float64)
    : result (list float64 * list float64) :=
  let coords := combine x_coords y_coords in
  let* min_x_idx := np_argmin x_coords in
  let* max_x_idx := np_argmax x_coords in
  let '(upper_surface, lower_surface) := separate coords in
  let upper_surface := sort fst true upper_surface in
  let lower_surface := sort fst false lower_surface in
  let lower_surface := drop_duplicate upper_surface lower_surface in
  let all_coords := upper_surface ++ lower_surface in
  match all_coords with
  | _ :: _ => Ok (map fst all_coords, map snd all_coords)
  | [] => Ok (x_coords, y_coords)
  end.

(** [csv_to_txt_format(csv_file_path, output_file_path, solidworks_format)]
    on the files [fs]: what the call returns or raises, and the files
    afterwards.  [None] is the default [output_file_path=None]. *)
Definition csv_to_txt_format (float : string -> result float64)
    (fs : files) (csv_file_path : string)
    (output_file_path : option string) (solidworks_format : bool)
    : result string * files :=
  match parse_airfoil_csv float (read_file fs) csv_file_path with
  | Raise e => (Raise e, fs)
  | Ok (x_coords, y_coords, airfoil_name, metadata) =>
      match process_coordinates_for_output x_coords y_coords with
      | Raise e => (Raise e, fs)
      | Ok (x_processed, y_processed) =>
          let lines :=
            if negb solidworks_format
            then [airfoil_name]
                 ++ map (fun xy => ("  " ++ format_f 6 (fst xy) ++ "  "
                                    ++ format_f 6 (snd xy))%string)
                      (combine x_processed y_processed)
            else map (fun xy => (format_f 6 (fst xy) ++ " "
                                 ++ format_f 6 (snd xy)
                                 ++ " 0.000000")%string)
                   (combine x_processed y_processed) in
          let content := join newline lines in
          match output_file_path with
          | Some path =>
              if nonempty path then
                match write_file fs path content with
                | Ok fs' => (Ok content, fs')
                | Raise e => (Raise e, fs)
                end
              else (Ok content, fs)
          | None => (Ok content, fs)
          end
      end
  end.

End CsvProcessor.

(* ================================================================== *)
(** * routes/airfoil.py *)
(* ================================================================== *)

Module Routes.
Import Py.

(** [request.files['csv_file']] *)
Record upload := Upload { filename : string; data : string }.

(** what [process_csv] reads of the request *)
Record request := Request {
  csv_file : option upload;
  solidworks_format_field : option string
}.

(** the argument of [jsonify] *)
Inductive payload :=
| error_payload (error : string)
| coordinates_payload (coordinates name format : string)
    (point_count : nat) (metadata : gmap string string).

Record response := Response { body : payload; status : Z }.

Section ProcessCsv.
(** [float(s)] *)
Variable float : string -> result float64.
(** [NamedTemporaryFile(...)] and [file.save(...)]: the temporary path *)
Variable save_upload : upload -> result string.
(** [open(path, 'r').read()] *)
Variable read_text : string -> result string.

Definition process_csv_body (req : request) : result response :=
  match csv_file req with
  | None => Ok (Response (error_payload "No CSV file uploaded") 400)
  | Some file =>
      if (filename file =? "")%string
      then Ok (Response (error_payload "No file selected") 400)
      else
        let solidworks_format :=
          (lower (default "false" (solidworks_format_field req))
             =? "true")%string in
        let* temp_path := save_upload file in
        let* (x_coords, y_coords, airfoil_name, metadata) :=
          CsvProcessor.parse_airfoil_csv float read_text temp_path in
        let* (x_processed, y_processed) :=
          CsvProcessor.process_coordinates_for_output x_coords y_coords in
        let points := combine x_processed y_processed in
        let coordinates_text :=
          if solidworks_format
          then join newline
                 (map (NacaGenerator.solidworks_line format_f) points)
          else join newline
                 ([airfoil_name]
                  ++ map (NacaGenerator.standard_line format_f) points) in
        Ok (Response
              (coordinates_payload coordinates_text airfoil_name
                 (if solidworks_format then "solidworks" else "standard")
                 (List.length x_processed) metadata)
              200)
  end.

Definition process_csv (req : request) : response :=
  match process_csv_body req with
  | Ok r => r
  | Raise e => Response (error_payload (str e)) 500
  end.
End ProcessCsv.

(** what [generate_naca] reads of the JSON body: an object whose
    'naca_code', if present, is a string and whose 'solidworks_format', if
    present, is a boolean *)
Record naca_request := NacaRequest {
  naca_code_field : option string;
  naca_solidworks_format : option bool
}.

(** the argument of [jsonify] in [generate_naca] *)
Inductive naca_payload :=
| naca_error (error : string)
| naca_coordinates (coordinates name format : string) (point_count : nat).

Record naca_response := NacaResponse {
  naca_body : naca_payload;
  naca_status : Z
}.

Section GenerateNaca.
(** [format(v, ".{n}f")] on the generator's floats *)
Variable format_f : nat -> R -> string.

Definition generate_naca_body (data : naca_request) : result naca_response :=
  let naca_code := default "2412" (naca_code_field data) in
  let solidworks_format := default false (naca_solidworks_format data) in
  if negb (nonempty naca_code)
     || negb (Nat.eqb (String.length naca_code) 4)
     || negb (isdigit naca_code)
  then Ok (NacaResponse
             (naca_error "Invalid NACA code. Must be 4 digits.") 400)
  else
    let* (x_coords, y_coords, header_info) :=
      NacaGenerator.generate_naca_4digit format_f naca_code 81 in
    let coordinates_text :=
      NacaGenerator.format_airfoil_txt format_f x_coords y_coords
        header_info solidworks_format in
    Ok (NacaResponse
          (naca_coordinates coordinates_text ("NACA " ++ naca_code)%string
             (if solidworks_format then "solidworks" else "standard")
             (List.length x_coords))
          200).

Definition generate_naca (data : naca_request) : naca_response :=
  match generate_naca_body data with
  | Ok r => r
  | Raise e => NacaResponse (naca_error (str e)) 500
  end.
End GenerateNaca.

End Routes.

(* ================================================================== *)
(** * Vocabulary of the statements *)
(* ================================================================== *)

Module Spec.
Import Py CsvProcessor.

(** [a <= b] on floats, which no NaN satisfies *)
Definition fle (a b : float64) : Prop :=
  match a, b with
  | nan, _ | _, nan => False
  | finite p, finite q => (p <= q)%Q
  | neg_inf, _ => True
  | _, pos_inf => True
  | _, _ => False
  end.

(** [a < b] on floats, which no NaN satisfies *)
Definition flt (a b : float64) : Prop :=
  match a, b with
  | nan, _ | _, nan => False
  | finite p, finite q => (p < q)%Q
  | neg_inf, neg_inf => False
  | neg_inf, _ => True
  | _, neg_inf => False
  | pos_inf, _ => False
  | finite _, pos_inf => True
  end.

(** no x of the points is NaN *)
Definition no_nan_x (coords : list (float64 * float64)) : Prop :=
  Forall (fun c => isnan (fst c) = false) coords.

(** the order [sort] puts a list in: by descending key under
    [reverse=True], by ascending key otherwise *)
Definition in_order {A : Type} (key : A -> float64) (reverse : bool) (a b : A)
    : Prop :=
  if reverse then fle (key b) (key a) else fle (key a) (key b).

(** the duplicate test of line 153, as a proposition *)
Definition coincide (upper_surface lower_surface : list (float64 * float64))
    : Prop :=
  exists lower0 upper_last,
    hd_error lower_surface = Some lower0 /\
    hd_error (rev upper_surface) = Some upper_last /\
    flt (fabs (fsub (fst lower0) (fst upper_last))) (finite (1 # 1000000)).

(** the normalized sequence: the first [len // 2 + 1] points sorted by
    descending x, then the other points sorted by ascending x, less a
    duplicate leading-edge point *)
Definition normalized (coords : list (float64 * float64))
    : list (float64 * float64) :=
  let upper := sort fst true (firstn (S (List.length coords / 2)) coords) in
  let lower := sort fst false (skipn (S (List.length coords / 2)) coords) in
  upper ++ drop_duplicate upper lower.

(** the physical lines the loop runs over (line 25) *)
Definition lines_of (content : string) : list string :=
  split (ascii_of_nat 10) (strip content).

(** the error the extractor ends with when it has collected no pair *)
Definition NoCoordinateDataError : exn :=
  Exn ValueError
    "Error parsing CSV file: No valid coordinate data found in CSV file".


(** What one iteration of the loop can do to the variables: one case per
    branch of the loop body that assigns, and [effect_none] for the
    branches that only [continue]. *)
Inductive effect (float : string -> result float64) (st : locals)
    (line : string) : locals -> Prop :=
| effect_none :
    effect float st line st
| effect_name (name : string) :
    effect float st line (set_airfoil_name name st)
| effect_surface_marker :
    contains "airfoil surface" (lower (strip line)) = true ->
    effect float st line
      (set_found_header true
         (set_in_coordinates false (set_coordinate_section surface st)))
| effect_other_marker (s : section) :
    s <> surface ->
    effect float st line
      (set_in_coordinates false (set_coordinate_section s st))
| effect_metadata (key value : string) :
    found_header st = false ->
    in_coordinates st = false ->
    effect float st line (set_metadata key value st)
| effect_column_header :
    coordinate_section st = Some surface ->
    effect float st line (set_in_coordinates true st)
| effect_row (x_field y_field : string) (others : list string)
    (x y : float64) :
    coordinate_section st = Some surface ->
    split "," (strip line) = x_field :: y_field :: others ->
    float (strip x_field) = Ok x ->
    float (strip y_field) = Ok y ->
    effect float st line (append_coordinate (x, y) st).

(** An iteration ends in one of the [effect]s, or in an exception of [float]
    that is no [ValueError]. *)
Definition outcome (float : string -> result float64) (st : locals)
    (line : string) (r : result locals) : Prop :=
  (exists st', r = Ok st' /\ effect float st line st') \/
  (exists s e, r = Raise e /\ float s = Raise e /\ exn_cls e <> ValueError).

(** the name a scan of [lines] ends with, starting from [name]: what follows
    "Name," on the last line that starts with it *)
Fixpoint last_name (lines : list string) (name : string) : string :=
  match lines with
  | [] => name
  | line :: lines' =>
      last_name lines'
        (if startswith (strip line) "Name,"
         then strip (String.substring 5 (String.length (strip line) - 5)
                       (strip line))
         else name)
  end.

(** [c] does not occur in the text [s] *)
Definition free_of (c : ascii) (s : string) : bool :=
  all_chars (fun ch => negb (Ascii.eqb ch c)) s.

(** the float array of the finite values [l] *)
Definition floats (l : list Q) : list float64 := map finite l.

(** the point of finite coordinates [xy] *)
Definition point (xy : Q * Q) : float64 * float64 :=
  (finite (fst xy), finite (snd xy)).

End Spec.

(* ================================================================== *)
(** * The runtime model on small inputs *)
(* ================================================================== *)

Section RuntimeExamples.
Import Py CsvProcessor Spec.

Example strip_example : strip "  X(mm), Y(mm) " = "X(mm), Y(mm)".
Proof. reflexivity. Qed.

Example split_example : split "," "1.0,,2" = ["1.0"; ""; "2"].
Proof. reflexivity. Qed.

Example split_max_example :
  split_max "," "Name,NACA 2412, cambered" 1 = ["Name"; "NACA 2412, cambered"].
Proof. reflexivity. Qed.

Example contains_example :
  contains "airfoil surface" (lower "Airfoil Surface,") = true /\
  contains "x" "1.0,0.5" = false.
Proof. split; reflexivity. Qed.

Example int_example :
  int "12" = Ok 12%Z /\ int "08" = Ok 8%Z /\
  exists e, int (String (ascii_of_nat 178) "412") = Raise e.
Proof. repeat split; try reflexivity. eexists. reflexivity. Qed.

Example float_example :
  Py.float "0.50" = Ok (finite (1 # 2)) /\
  Py.float "-1.5e2" = Ok (finite (-150)) /\
  Py.float " 200 " = Ok (finite 200) /\
  Py.float "1e308" = Ok (finite (inject_Z (10 ^ 308))) /\
  Py.float "1e400" = Ok pos_inf /\
  Py.float "-Infinity" = Ok neg_inf /\
  Py.float " inf" = Ok pos_inf /\
  Py.float "NaN" = Ok nan /\
  exists e, Py.float "abc" = Raise e.
Proof.
  repeat split; try (vm_compute; reflexivity). eexists. reflexivity.
Qed.

Example float_arithmetic_example :
  truediv (finite 5) pos_inf = finite 0 /\
  truediv pos_inf pos_inf = nan /\
  truediv (finite 100) (finite 200) = finite (1 # 2) /\
  fsub pos_inf pos_inf = nan /\
  fltb (finite 10) pos_inf = true /\
  fltb (finite 10) nan = false /\
  np_max [finite 1; nan; finite 200] = Ok nan /\
  np_max [finite 1; pos_inf; finite 200] = Ok pos_inf.
Proof. repeat split; reflexivity. Qed.

Example format_f_example :
  format_f 6 (finite (1 # 3)) = "0.333333" /\
  format_f 6 (finite (-5 # 100)) = "-0.050000" /\
  format_f 6 (finite (3 # 2000000)) = "0.000002" /\
  format_f 1 (finite 40) = "40.0" /\
  format_f 6 nan = "nan" /\
  format_f 6 neg_inf = "-inf".
Proof. repeat split; reflexivity. Qed.

Example sort_stable_example :
  sort fst true (map point [(1, 1); (3, 1); (2, 1); (3, 2); (1, 2)]%Q)
  = map point [(3, 1); (3, 2); (2, 1); (1, 1); (1, 2)]%Q /\
  sort fst false (map point [(1, 1); (3, 1); (2, 1); (3, 2); (1, 2)]%Q)
  = map point [(1, 1); (1, 2); (2, 1); (3, 1); (3, 2)]%Q.
Proof. split; reflexivity. Qed.

Example parse_example :
  parse_airfoil_csv Py.float
    (fun _ => Ok ("Name,B737" ++ newline ++ "Airfoil surface," ++ newline
                  ++ "X(mm),Y(mm)" ++ newline ++ "100,0" ++ newline
                  ++ "50,n/a" ++ newline ++ "0,0" ++ newline
                  ++ "Camber line," ++ newline ++ "50,2")%string)
    "b737.csv"
  = Ok (floats [1; 0]%Q, floats [0; 0]%Q, "B737", ∅).
Proof. vm_compute. reflexivity. Qed.

Example process_example :
  process_coordinates_for_output
    (floats [1; 0; 1 # 2; 0; 1 # 2; 1]%Q)
    (floats [0; 0; 1 # 10; 0; -1 # 10; 0]%Q)
  = Ok (floats [1; 1 # 2; 0; 0; 1 # 2; 1]%Q,
        floats [0; 1 # 10; 0; 0; -1 # 10; 0]%Q).
Proof. vm_compute. reflexivity. Qed.

End RuntimeExamples.

(* ================================================================== *)
(** * Properties of the generator *)
(* ================================================================== *)

Section GeneratorFacts.
Import Py NacaGenerator.

Lemma map2_length {A B C} (f : A -> B -> C) (a : list A) (b : list B) :
  List.length (map2 f a b) = Nat.min (List.length a) (List.length b).
Proof.
  revert b. induction a as [|x a IH]; intros [|y b]; simpl; auto.
Qed.

Lemma assign_masked_length (mask : list bool) (values arr : list R) :
  List.length (assign_masked mask values arr) = List.length arr.
Proof.
  revert mask values.
  induction arr as [|a arr IH]; intros [|b mask] [|v values]; simpl; auto.
Qed.

Lemma camber_length (m p : R) (x : list R) :
  List.length (fst (camber m p x)) = List.length x /\
  List.length (snd (camber m p x)) = List.length x.
Proof.
  unfold camber.
  destruct (Rltb 0 m && Rltb 0 p); simpl;
    rewrite ?assign_masked_length; unfold zeros_like;
    rewrite !length_map; auto.
Qed.

Lemma linspace_length (start stop : R) (num : Z) :
  (0 <= num)%Z ->
  exists y, linspace start stop num = Ok y /\
            List.length y = Z.to_nat num.
Proof.
  intros Hn. unfold linspace.
  destruct (Z.ltb_spec num 0) as [H|_]; [lia|].
  eexists; split; [reflexivity|].
  set (y := map _ (if (0 <? num - 1)%Z then _ else _)).
  assert (Hy : List.length y = Z.to_nat num).
  { unfold y. destruct (0 <? num - 1)%Z;
      rewrite !length_map, length_seq; reflexivity. }
  destruct (Z.ltb_spec 1 num) as [H|_]; [|exact Hy].
  rewrite length_app, removelast_firstn_len, length_firstn, Hy. simpl. lia.
Qed.

Lemma stations_length (num_points : Z) :
  (0 <= num_points)%Z ->
  exists x, stations num_points = Ok x /\
            List.length x = Z.to_nat num_points.
Proof.
  intros Hn. unfold stations.
  destruct (linspace_length 0 PI num_points Hn) as (beta & -> & Hlen).
  simpl. eexists; split; [reflexivity|].
  rewrite length_map. exact Hlen.
Qed.

Lemma isdecimal_cases (c : ascii) :
  isdecimal c = true ->
  In c ["0"; "1"; "2"; "3"; "4"; "5"; "6"; "7"; "8"; "9"]%char.
Proof.
  destruct c as [[] [] [] [] [] [] [] []]; vm_compute; intros H;
    try discriminate H; tauto.
Qed.

Lemma int_digit (c : ascii) :
  isdecimal c = true -> int (String c EmptyString) = Ok (digit_value c).
Proof.
  intros H. apply isdecimal_cases in H. simpl in H.
  repeat (destruct H as [<-|H]; [reflexivity|]). destruct H.
Qed.

Lemma int_two_digits (c d : ascii) :
  isdecimal c = true -> isdecimal d = true ->
  int (String c (String d EmptyString))
  = Ok (10 * digit_value c + digit_value d)%Z.
Proof.
  intros Hc Hd. apply isdecimal_cases in Hc, Hd. simpl in Hc, Hd.
  repeat (destruct Hc as [<-|Hc];
          [repeat (destruct Hd as [<-|Hd]; [reflexivity|]); destruct Hd|]).
  destruct Hc.
Qed.

Lemma isdecimal_isdigit (c : ascii) :
  isdecimal c = true -> isdigit_char c = true.
Proof. unfold isdigit_char. intros ->. reflexivity. Qed.

(** A valid code passes the generator's check, and its three parameters
    are the digits it spells. *)
Lemma valid_code_inv (naca_code : string) :
  valid_code naca_code ->
  exists c0 c1 c2 c3,
    naca_code = String c0 (String c1 (String c2 (String c3 EmptyString))) /\
    isdigit naca_code = true /\
    naca_parameters naca_code
    = Ok ((IZR (digit_value c0) / 100)%R, (IZR (digit_value c1) / 10)%R,
          (IZR (10 * digit_value c2 + digit_value c3) / 100)%R).
Proof.
  intros [Hlen Hall].
  destruct naca_code as [|c0 [|c1 [|c2 [|c3 [|]]]]]; try discriminate Hlen.
  simpl in Hall.
  apply andb_true_iff in Hall as [H0 Hall].
  apply andb_true_iff in Hall as [H1 Hall].
  apply andb_true_iff in Hall as [H2 Hall].
  apply andb_true_iff in Hall as [H3 _].
  exists c0, c1, c2, c3. split; [reflexivity|]. split.
  - unfold isdigit. simpl.
    rewrite !isdecimal_isdigit by assumption. reflexivity.
  - unfold naca_parameters, str_getitem, str_slice. simpl.
    rewrite (int_digit c0 H0). simpl.
    rewrite (int_digit c1 H1). simpl.
    rewrite (int_two_digits c2 c3 H2 H3). reflexivity.
Qed.

End GeneratorFacts.

Section GeneratorTheorems.
Import Py NacaGenerator.

Lemma surfaces_length (m p t : R) (x : list R) :
  let '((xu, yu), (xl, yl)) := surfaces m p t x in
  List.length xu = List.length x /\ List.length yu = List.length x /\
  List.length xl = List.length x /\ List.length yl = List.length x.
Proof.
  unfold surfaces, upper_surface, lower_surface.
  destruct (camber_length m p x) as [Hc Hd].
  destruct (camber m p x) as [yc dyc_dx]. simpl in Hc, Hd.
  rewrite !map2_length, !length_map, Hc, Hd. lia.
Qed.

(** The first station is the leading edge [x = 0]. *)
Lemma stations_head (num_points : Z) :
  (1 <= num_points)%Z ->
  exists x', stations num_points = Ok (0%R :: x').
Proof.
  intros Hn. unfold stations, linspace.
  destruct (Z.ltb_spec num_points 0) as [H|_]; [lia|].
  destruct (Z.to_nat num_points) as [|k] eqn:Hk; [lia|].
  simpl seq. simpl bind.
  assert (Hx0 : (0.5 * (1 - cos 0) = 0)%R) by (rewrite cos_0; lra).
  destruct (Z.ltb_spec 1 num_points) as [H1|H1].
  - destruct k as [|k]; [lia|].
    destruct (Z.ltb_spec 0 (num_points - 1)) as [_|H2]; [|lia].
    simpl. eexists. f_equal. f_equal.
    rewrite Rmult_0_l, Rplus_0_l. exact Hx0.
  - destruct (Z.ltb_spec 0 (num_points - 1)) as [H2|_]; [lia|].
    simpl. eexists. f_equal. f_equal.
    rewrite Rmult_0_l, Rplus_0_l. exact Hx0.
Qed.

Lemma yt_leading_edge (t : R) : yt t 0 = 0%R.
Proof. unfold yt. rewrite sqrt_0. lra. Qed.

(** At the leading edge both surfaces pass through the same point. *)
Lemma surfaces_head (m p t : R) (x' : list R) :
  let '((xu, yu), (xl, yl)) := surfaces m p t (0%R :: x') in
  hd_error xl = hd_error xu /\ hd_error yl = hd_error yu.
Proof.
  unfold surfaces, upper_surface, lower_surface.
  destruct (camber_length m p (0%R :: x')) as [Hc Hd].
  destruct (camber m p (0%R :: x')) as [[|yc0 yc] [|d0 dyc_dx]];
    try discriminate Hc; try discriminate Hd.
  simpl. rewrite yt_leading_edge. split; f_equal; lra.
Qed.

(** C1.  For a valid 4-digit code and a point count [n >= 1], the generator
    returns the [n] points of the upper surface in reverse order (trailing
    edge first) followed by the lower surface without its first point,
    [n - 1] points, hence [2n - 1] points in all; the point left out is the
    leading-edge point the two surfaces share, already emitted as the last
    point of the reversed upper surface. *)
Theorem C1_generate_upper_reversed_then_lower_tail
    (format_f : nat -> R -> string) (naca_code : string) (num_points : Z) :
  valid_code naca_code ->
  (1 <= num_points)%Z ->
  exists m p t x header_info,
    naca_parameters naca_code = Ok (m, p, t) /\
    stations num_points = Ok x /\
    let '((xu, yu), (xl, yl)) := surfaces m p t x in
    generate_naca_4digit format_f naca_code num_points
    = Ok (rev xu ++ tl xl, rev yu ++ tl yl, header_info) /\
    Z.of_nat (List.length (rev xu)) = num_points /\
    Z.of_nat (List.length (rev yu)) = num_points /\
    Z.of_nat (List.length (tl xl)) = (num_points - 1)%Z /\
    Z.of_nat (List.length (tl yl)) = (num_points - 1)%Z /\
    Z.of_nat (List.length (rev xu ++ tl xl)) = (2 * num_points - 1)%Z /\
    Z.of_nat (List.length (rev yu ++ tl yl)) = (2 * num_points - 1)%Z /\
    hd_error xl = hd_error xu /\ hd_error yl = hd_error yu.
Proof.
  intros Hcode Hn.
  destruct (valid_code_inv naca_code Hcode)
    as (c0 & c1 & c2 & c3 & Hshape & Hdigit & Hpar).
  destruct (stations_head num_points Hn) as (x' & Hx).
  destruct (stations_length num_points ltac:(lia)) as (x & Hx2 & Hlen).
  rewrite Hx in Hx2. injection Hx2 as <-.
  eexists _, _, _, (0%R :: x'), _.
  split; [exact Hpar|]. split; [exact Hx|].
  pose proof (surfaces_length (IZR (digit_value c0) / 100)
                (IZR (digit_value c1) / 10)
                (IZR (10 * digit_value c2 + digit_value c3) / 100)
                (0%R :: x')) as HL.
  pose proof (surfaces_head (IZR (digit_value c0) / 100)
                (IZR (digit_value c1) / 10)
                (IZR (10 * digit_value c2 + digit_value c3) / 100) x') as HH.
  unfold generate_naca_4digit.
  rewrite Hdigit, Hpar, Hx.
  replace (String.length naca_code) with 4%nat by (rewrite Hshape; reflexivity).
  cbv beta iota delta [bind negb orb].
  unfold surfaces in *.
  destruct (camber _ _ (0%R :: x')) as [yc dyc_dx].
  destruct (upper_surface _ _ _ _) as [xu yu].
  destruct (lower_surface _ _ _ _) as [xl yl].
  destruct HL as (Hxu & Hyu & Hxl & Hyl).
  split; [reflexivity|].
  rewrite !length_app, !length_rev.
  destruct xl as [|xl0 xl]; [discriminate Hxl|].
  destruct yl as [|yl0 yl]; [discriminate Hyl|].
  simpl tl. simpl in Hxl, Hyl, Hlen.
  rewrite Hxu, Hyu. simpl List.length.
  repeat split; try lia; apply HH.
Qed.

(** A concrete instance of C1: NACA 2412 at the default 81 points. *)
Lemma C1_witness :
  valid_code "2412" /\ (1 <= 81)%Z /\
  exists m p t x header_info,
    naca_parameters "2412" = Ok (m, p, t) /\
    stations 81 = Ok x /\
    let '((xu, yu), (xl, yl)) := surfaces m p t x in
    generate_naca_4digit (fun _ _ => EmptyString) "2412" 81
    = Ok (rev xu ++ tl xl, rev yu ++ tl yl, header_info) /\
    Z.of_nat (List.length (rev xu)) = 81%Z /\
    Z.of_nat (List.length (rev yu)) = 81%Z /\
    Z.of_nat (List.length (tl xl)) = (81 - 1)%Z /\
    Z.of_nat (List.length (tl yl)) = (81 - 1)%Z /\
    Z.of_nat (List.length (rev xu ++ tl xl)) = (2 * 81 - 1)%Z /\
    Z.of_nat (List.length (rev yu ++ tl yl)) = (2 * 81 - 1)%Z /\
    hd_error xl = hd_error xu /\ hd_error yl = hd_error yu.
Proof.
  assert (Hv : valid_code "2412") by (split; reflexivity).
  assert (Hn : (1 <= 81)%Z) by lia.
  split; [exact Hv|]. split; [exact Hn|].
  exact (C1_generate_upper_reversed_then_lower_tail
           (fun _ _ => EmptyString) "2412" 81 Hv Hn).
Defined.

Lemma Rltb_irrefl (a : R) : Rltb a a = false.
Proof. unfold Rltb. destruct (Rlt_dec a a) as [H|_]; [lra|reflexivity]. Qed.

(** Without camber ([m = 0] or [p = 0]) the camber line and its slope stay
    at their initial zeros. *)
Lemma camber_symmetric (m p : R) (x : list R) :
  m = 0%R \/ p = 0%R -> camber m p x = (zeros_like x, zeros_like x).
Proof.
  intros [-> | ->]; unfold camber; rewrite Rltb_irrefl;
    rewrite ?andb_false_r; reflexivity.
Qed.

Lemma upper_surface_symmetric (yts x : list R) :
  List.length yts = List.length x ->
  upper_surface x yts (zeros_like x) (map atan (zeros_like x)) = (x, yts).
Proof.
  unfold upper_surface, zeros_like. revert yts.
  induction x as [|v x IH]; intros [|y yts] Hlen; try discriminate Hlen;
    [reflexivity|].
  injection Hlen as Hlen. specialize (IH yts Hlen).
  injection IH as IHx IHy. simpl.
  rewrite IHx, IHy, atan_0, sin_0, cos_0. f_equal; f_equal; lra.
Qed.

Lemma lower_surface_symmetric (yts x : list R) :
  List.length yts = List.length x ->
  lower_surface x yts (zeros_like x) (map atan (zeros_like x))
  = (x, map Ropp yts).
Proof.
  unfold lower_surface, zeros_like. revert yts.
  induction x as [|v x IH]; intros [|y yts] Hlen; try discriminate Hlen;
    [reflexivity|].
  injection Hlen as Hlen. specialize (IH yts Hlen).
  injection IH as IHx IHy. simpl.
  rewrite IHx, IHy, atan_0, sin_0, cos_0. f_equal; f_equal; lra.
Qed.

(** C8.  For a code with [m = 0] or [p = 0] and any point count the camber
    line [yc] (and its slope) is zero at every station, the upper surface is
    [(x, yt(x))] and the lower surface [(x, -yt(x))] station by station, and
    these mirror images are what the generator emits. *)
Theorem C8_symmetric_code_mirror_surfaces
    (format_f : nat -> R -> string) (naca_code : string) (num_points : Z)
    (m p t : R) :
  valid_code naca_code ->
  (0 <= num_points)%Z ->
  naca_parameters naca_code = Ok (m, p, t) ->
  m = 0%R \/ p = 0%R ->
  exists x header_info,
    stations num_points = Ok x /\
    camber m p x = (map (fun _ => 0%R) x, map (fun _ => 0%R) x) /\
    surfaces m p t x
    = ((x, map (yt t) x), (x, map (fun v => (- yt t v)%R) x)) /\
    generate_naca_4digit format_f naca_code num_points
    = Ok (rev x ++ tl x,
          rev (map (yt t) x) ++ tl (map (fun v => (- yt t v)%R) x),
          header_info).
Proof.
  intros Hcode Hn Hpar Hsym.
  destruct (valid_code_inv naca_code Hcode)
    as (c0 & c1 & c2 & c3 & Hshape & Hdigit & _).
  destruct (stations_length num_points Hn) as (x & Hx & _).
  assert (Hsurf : surfaces m p t x
            = ((x, map (yt t) x), (x, map (fun v => (- yt t v)%R) x))).
  { unfold surfaces. rewrite (camber_symmetric m p x Hsym).
    rewrite upper_surface_symmetric, lower_surface_symmetric
      by apply length_map.
    rewrite map_map. reflexivity. }
  exists x. eexists.
  split; [exact Hx|]. split; [exact (camber_symmetric m p x Hsym)|].
  split; [exact Hsurf|].
  unfold generate_naca_4digit.
  rewrite Hdigit, Hpar, Hx.
  replace (String.length naca_code) with 4%nat by (rewrite Hshape; reflexivity).
  cbv beta iota delta [bind negb orb].
  unfold surfaces in Hsurf.
  destruct (camber m p x) as [yc dyc_dx].
  apply pair_equal_spec in Hsurf as [-> ->]. reflexivity.
Qed.

(** A concrete instance of C8: the symmetric section NACA 0012. *)
Lemma C8_witness :
  exists x header_info,
    stations 81 = Ok x /\
    camber (IZR 0 / 100) (IZR 0 / 10) x
    = (map (fun _ => 0%R) x, map (fun _ => 0%R) x) /\
    surfaces (IZR 0 / 100) (IZR 0 / 10) (IZR (10 * 1 + 2) / 100) x
    = ((x, map (yt (IZR (10 * 1 + 2) / 100)) x),
       (x, map (fun v => (- yt (IZR (10 * 1 + 2) / 100) v)%R) x)) /\
    generate_naca_4digit (fun _ _ => EmptyString) "0012" 81
    = Ok (rev x ++ tl x,
          rev (map (yt (IZR (10 * 1 + 2) / 100)) x)
          ++ tl (map (fun v => (- yt (IZR (10 * 1 + 2) / 100) v)%R) x),
          header_info).
Proof.
  apply (C8_symmetric_code_mirror_surfaces (fun _ _ => EmptyString) "0012" 81
           (IZR 0 / 100) (IZR 0 / 10) (IZR (10 * 1 + 2) / 100)).
  - split; reflexivity.
  - lia.
  - reflexivity.
  - left. lra.
Defined.

End GeneratorTheorems.

(* ================================================================== *)
(** * Properties of the serializer *)
(* ================================================================== *)

Section SerializerTheorems.
Import Py NacaGenerator.

Lemma combine_fst_snd {A B} (l : list (A * B)) :
  combine (map fst l) (map snd l) = l.
Proof.
  induction l as [|[a b] l IH]; simpl; [reflexivity|]. now rewrite IH.
Qed.

(** C9.  In SolidWorks format the text is the points' lines joined by
    newlines, each line being the two coordinates with six decimals and the
    constant "0.000000", separated by single spaces; the header is not part
    of it.  On the two points (1.0, 0.0), (0.0, 0.0) the text is exactly the
    two lines "1.000000 0.000000 0.000000" and "0.000000 0.000000 0.000000". *)
Theorem C9_solidworks_format_lines :
  (forall (float : Type) (format_f : nat -> float -> string)
          (points : list (float * float)) (header_info : string),
      format_airfoil_txt format_f (map fst points) (map snd points)
        header_info true
      = join newline
          (map (fun pt => (format_f 6 (fst pt) ++ " " ++ format_f 6 (snd pt)
                           ++ " 0.000000")%string) points)) /\
  (forall (float : Type) (format_f : nat -> float -> string)
          (x_coords y_coords : list float) (header_info other_header : string),
      format_airfoil_txt format_f x_coords y_coords header_info true
      = format_airfoil_txt format_f x_coords y_coords other_header true) /\
  (forall header_info : string,
      format_airfoil_txt Py.format_f [finite 1; finite 0]
        [finite 0; finite 0] header_info true
      = ("1.000000 0.000000 0.000000" ++ newline
         ++ "0.000000 0.000000 0.000000")%string).
Proof.
  split; [|split].
  - intros float format_f points header_info.
    unfold format_airfoil_txt. simpl negb. cbv iota.
    rewrite combine_fst_snd. reflexivity.
  - reflexivity.
  - intros header_info. vm_compute. reflexivity.
Qed.

End SerializerTheorems.

(* ================================================================== *)
(** * Properties of the sort and of the numpy reductions *)
(* ================================================================== *)

Section SortFacts.
Import Py Spec.
Context {A : Type}.
Variable key : A -> float64.
Variable reverse : bool.

Lemma Qltb_lt (a b : Q) : Qltb a b = true <-> (a < b)%Q.
Proof.
  unfold Qltb. rewrite Qlt_alt.
  destruct (a ?= b)%Q; split; intros H; congruence.
Qed.

Lemma Qltb_ge (a b : Q) : Qltb a b = false <-> (b <= a)%Q.
Proof.
  rewrite <- not_true_iff_false, Qltb_lt. split.
  - apply Qnot_lt_le.
  - apply Qle_not_lt.
Qed.

Lemma fltb_flt (a b : float64) : fltb a b = true <-> flt a b.
Proof.
  destruct a, b; simpl; try apply Qltb_lt;
    split; intros H; try discriminate H; try contradiction; auto.
Qed.

Lemma flt_fle (a b : float64) : flt a b -> fle a b.
Proof. destruct a, b; simpl; auto. apply Qlt_le_weak. Qed.

Lemma fle_fltb (a b : float64) : fle a b -> fltb b a = false.
Proof.
  destruct a, b; simpl; try reflexivity; try contradiction.
  apply Qltb_ge.
Qed.

(** Without NaN, [<] and [<=] are the two sides of a total order. *)
Lemma fltb_fle (a b : float64) :
  isnan a = false -> isnan b = false -> fltb a b = false -> fle b a.
Proof.
  destruct a, b; simpl; intros Ha Hb H; try discriminate; auto.
  now apply Qltb_ge.
Qed.

Lemma fle_trans (a b c : float64) : fle a b -> fle b c -> fle a c.
Proof.
  destruct a, b, c; simpl; auto; try contradiction.
  apply Qle_trans.
Qed.

Lemma fle_refl (a : float64) : isnan a = false -> fle a a.
Proof. destruct a; simpl; auto; [intros _; apply Qle_refl|discriminate]. Qed.

Lemma in_order_trans (a b c : A) :
  in_order key reverse a b -> in_order key reverse b c ->
  in_order key reverse a c.
Proof.
  unfold in_order. destruct reverse; intros H1 H2;
    eapply fle_trans; eassumption.
Qed.

Lemma precedes_in_order (y x : A) :
  precedes key reverse y x = true -> in_order key reverse y x.
Proof.
  unfold precedes, in_order. destruct reverse; rewrite fltb_flt;
    apply flt_fle.
Qed.

Lemma not_precedes_in_order (y x : A) :
  isnan (key x) = false -> isnan (key y) = false ->
  precedes key reverse y x = false -> in_order key reverse x y.
Proof.
  unfold precedes, in_order. destruct reverse; intros Hx Hy;
    now apply fltb_fle.
Qed.

Lemma insert_perm (x : A) (l : list A) :
  Permutation (insert key reverse x l) (x :: l).
Proof.
  induction l as [|y l IH]; simpl; [reflexivity|].
  destruct (precedes key reverse y x); [|reflexivity].
  rewrite IH. apply perm_swap.
Qed.

Lemma sort_perm (l : list A) : Permutation (sort key reverse l) l.
Proof.
  induction l as [|x l IH]; simpl; [reflexivity|].
  rewrite insert_perm. now apply perm_skip.
Qed.

Lemma insert_sorted (x : A) (l : list A) :
  isnan (key x) = false ->
  Forall (fun a => isnan (key a) = false) l ->
  StronglySorted (in_order key reverse) l ->
  StronglySorted (in_order key reverse) (insert key reverse x l).
Proof.
  intros Hx Hl. induction 1 as [|y l Hs IH Hy]; simpl.
  - repeat constructor.
  - inversion Hl as [|? ? Hyn Hln]; subst.
    destruct (precedes key reverse y x) eqn:Hp.
    + constructor; [exact (IH Hln)|].
      eapply Permutation_Forall; [symmetry; apply insert_perm|].
      constructor; [now apply precedes_in_order|exact Hy].
    + apply not_precedes_in_order in Hp; [|assumption|assumption].
      constructor; [now constructor|].
      constructor; [exact Hp|].
      eapply List.Forall_impl; [|exact Hy].
      intros z Hz. now apply in_order_trans with y.
Qed.

(** Where no key is NaN the sorted list is in order. *)
Lemma sort_sorted (l : list A) :
  Forall (fun a => isnan (key a) = false) l ->
  StronglySorted (in_order key reverse) (sort key reverse l).
Proof.
  induction 1 as [|x l Hx Hl IH]; simpl; [constructor|].
  apply insert_sorted; [exact Hx| |exact IH].
  eapply Permutation_Forall; [symmetry; apply sort_perm|exact Hl].
Qed.

Lemma sort_length (l : list A) :
  List.length (sort key reverse l) = List.length l.
Proof. apply Permutation_length, sort_perm. Qed.

End SortFacts.

(* ================================================================== *)
(** * Properties of the normalizer *)
(* ================================================================== *)

Section NormalizerTheorems.
Import Py CsvProcessor Spec.

Lemma separate_from {P : Type} (h : nat) (l : list P) :
  forall (k : nat) (upper lower : list P),
    fold_left
      (fun (acc : list P * list P) (ic : nat * P) =>
         if Nat.leb (fst ic) h
         then (fst acc ++ [snd ic], snd acc)
         else (fst acc, snd acc ++ [snd ic]))
      (combine (seq k (List.length l)) l) (upper, lower)
    = (upper ++ firstn (S h - k) l, lower ++ skipn (S h - k) l).
Proof.
  induction l as [|a l IH]; intros k upper lower.
  - simpl. rewrite firstn_nil, skipn_nil, !app_nil_r. reflexivity.
  - cbn [List.length seq combine fold_left fst snd].
    destruct (Nat.leb_spec k h) as [Hk|Hk]; rewrite IH.
    + replace (S h - k)%nat with (S (S h - S k)) by lia. simpl.
      rewrite <- app_assoc. reflexivity.
    + replace (S h - k)%nat with 0%nat by lia.
      replace (S h - S k)%nat with 0%nat by lia.
      rewrite <- app_assoc. reflexivity.
Qed.

(** The loop of lines 139-143 cuts the sequence after the midpoint index
    [len // 2]: the points at indices [0 .. len // 2] form the upper
    surface, the others the lower surface. *)
Lemma separate_midpoint (coords : list (float64 * float64)) :
  separate coords
  = (firstn (S (List.length coords / 2)) coords,
     skipn (S (List.length coords / 2)) coords).
Proof.
  unfold separate, enumerate. rewrite separate_from.
  rewrite Nat.sub_0_r. reflexivity.
Qed.


Lemma drop_duplicate_cases
    (upper_surface lower_surface : list (float64 * float64)) :
  (coincide upper_surface lower_surface /\
   drop_duplicate upper_surface lower_surface = tl lower_surface) \/
  (~ coincide upper_surface lower_surface /\
   drop_duplicate upper_surface lower_surface = lower_surface).
Proof.
  unfold drop_duplicate, coincide.
  destruct lower_surface as [|l0 rest].
  { right. split; [|reflexivity]. intros (? & ? & H & _). discriminate H. }
  destruct (rev upper_surface) as [|u ru].
  { right. split; [|reflexivity]. intros (? & ? & _ & H & _). discriminate H. }
  destruct (fltb (fabs (fsub (fst l0) (fst u))) (finite (1 # 1000000)))
    eqn:Hlt.
  - left. split; [|reflexivity]. apply fltb_flt in Hlt. eauto.
  - right. split; [|reflexivity].
    intros (l0' & u' & H1 & H2 & H3).
    injection H1 as <-. injection H2 as <-.
    apply fltb_flt in H3. congruence.
Qed.


Lemma process_nonempty (c : float64 * float64)
    (coords : list (float64 * float64)) :
  process_coordinates_for_output (map fst (c :: coords)) (map snd (c :: coords))
  = Ok (map fst (normalized (c :: coords)),
        map snd (normalized (c :: coords))).
Proof.
  unfold process_coordinates_for_output.
  rewrite combine_fst_snd, separate_midpoint.
  unfold normalized.
  set (upper := sort fst true _).
  set (lower := sort fst false _).
  assert (Hu : upper <> []).
  { intros H. apply (f_equal (@List.length _)) in H.
    unfold upper in H. rewrite sort_length in H. discriminate H. }
  simpl np_argmin. simpl np_argmax. cbv beta iota delta [bind].
  destruct (upper ++ drop_duplicate upper lower) as [|a all] eqn:Hall;
    [|reflexivity].
  apply app_eq_nil in Hall as [H _]. contradiction.
Qed.

Lemma process_empty :
  process_coordinates_for_output [] []
  = Raise (Exn ValueError "attempt to get argmin of an empty sequence").
Proof. reflexivity. Qed.


Lemma normalized_perm (coords : list (float64 * float64)) :
  Permutation (normalized coords) coords \/
  exists dropped, Permutation (dropped :: normalized coords) coords.
Proof.
  unfold normalized.
  set (upper := sort fst true _). set (lower := sort fst false _).
  assert (Hall : Permutation (upper ++ lower) coords).
  { etransitivity; [apply Permutation_app; apply sort_perm|].
    rewrite firstn_skipn. reflexivity. }
  destruct (drop_duplicate_cases upper lower) as [[_ ->]|[_ ->]].
  - destruct lower as [|l0 rest]; [left; exact Hall|].
    right. exists l0. simpl tl.
    rewrite <- Hall. apply Permutation_middle.
  - left. exact Hall.
Qed.

(** C10.  On a non-empty sequence every point of the normalizer's output is
    a point of the input, and the output has the input's length or one point
    less.  On the empty sequence the code does not return the input: the
    [np.argmin] call of line 131 raises [ValueError]. *)
Theorem C10_normalize_points_and_length :
  process_coordinates_for_output [] []
  = Raise (Exn ValueError "attempt to get argmin of an empty sequence") /\
  forall (c : float64 * float64) (coords : list (float64 * float64)),
    exists out,
      process_coordinates_for_output
        (map fst (c :: coords)) (map snd (c :: coords))
      = Ok (map fst out, map snd out) /\
      incl out (c :: coords) /\
      (List.length out = List.length (c :: coords) \/
       S (List.length out) = List.length (c :: coords)).
Proof.
  split; [exact process_empty|].
  intros c coords. exists (normalized (c :: coords)).
  split; [apply process_nonempty|].
  destruct (normalized_perm (c :: coords)) as [Hp|[d Hp]].
  - split.
    + intros a Ha. eapply Permutation_in; eassumption.
    + left. apply Permutation_length. exact Hp.
  - split.
    + intros a Ha. eapply Permutation_in; [exact Hp|]. now right.
    + right. apply Permutation_length in Hp. exact Hp.
Qed.

End NormalizerTheorems.

(* ================================================================== *)
(** * Properties of the extractor *)
(* ================================================================== *)

Section ExtractorFacts.
Import Py CsvProcessor Spec.

(** [float(s)] *)
Variable float : string -> result float64.



Lemma prefix_split (p s : string) :
  String.prefix p s = true -> exists rest, s = (p ++ rest)%string.
Proof.
  revert s. induction p as [|a p IH]; intros s H.
  - exists s. reflexivity.
  - destruct s as [|b s]; [discriminate H|]. simpl in H.
    destruct (ascii_dec a b) as [<-|]; [|discriminate H].
    destruct (IH s H) as [rest ->]. exists rest. reflexivity.
Qed.

Lemma name_line_split (line : string) :
  startswith line "Name," = true ->
  exists rest, split_max "," line 1 = ["Name"; rest].
Proof.
  intros H. apply prefix_split in H as [rest ->].
  exists rest. destruct rest; reflexivity.
Qed.

Lemma startswith_contains (s p : string) :
  startswith s p = true -> contains p s = true.
Proof.
  unfold startswith. intros H. destruct s; cbn [contains]; rewrite H;
    reflexivity.
Qed.

Lemma is_surface_true (s : option section) :
  is_surface s = true -> s = Some surface.
Proof. destruct s as [[]|]; simpl; congruence. Qed.


Lemma outcome_none (st : locals) (line : string) : outcome float st line (Ok st).
Proof. left. exists st. split; [reflexivity|constructor]. Qed.

Lemma exn_class_eqb_false (c1 c2 : exn_class) :
  exn_class_eqb c1 c2 = false -> c1 <> c2.
Proof. destruct c1, c2; simpl; congruence. Qed.

Lemma caught_or_escapes (st : locals) (line s : string) (e : exn) :
  float s = Raise e ->
  outcome float st line
    (if exn_class_eqb (exn_cls e) ValueError then Ok st else Raise e).
Proof.
  intros He. destruct (exn_class_eqb (exn_cls e) ValueError) eqn:Hc.
  - apply outcome_none.
  - right. exists s, e. repeat split; [exact He|].
    now apply exn_class_eqb_false.
Qed.

Lemma parse_row_outcome (st : locals) (line : string)
    (x_field y_field : string) (others : list string) :
  coordinate_section st = Some surface ->
  split "," (strip line) = x_field :: y_field :: others ->
  outcome float st line
    (try_except (parse_row float (x_field :: y_field :: others) st)
       ValueError (fun _ => Ok st)).
Proof.
  intros Hsec Hsplit. unfold parse_row, getitem. simpl.
  destruct (nonempty (strip x_field) && nonempty (strip y_field)
            && negb (contains "X(" (strip x_field)
                     || contains "Y(" (strip x_field)));
    [|apply outcome_none].
  destruct (float (strip x_field)) as [x|e] eqn:Hx; simpl;
    [|eapply caught_or_escapes; eassumption].
  destruct (float (strip y_field)) as [y|e] eqn:Hy; simpl;
    [|eapply caught_or_escapes; eassumption].
  left. eexists. split; [reflexivity|]. eapply effect_row; eassumption.
Qed.

Lemma loop_body_outcome (st : locals) (line : string) :
  outcome float st line (loop_body float st line).
Proof.
  unfold loop_body.
  destruct (negb (nonempty (strip line)) || (strip line =? ",")%string);
    [apply outcome_none|].
  destruct (startswith (strip line) "Name,") eqn:Hname.
  { destruct (name_line_split _ Hname) as [rest ->]. simpl.
    left. eexists. split; [reflexivity|constructor]. }
  destruct (contains "airfoil surface" (lower (strip line))
            || startswith (lower (strip line)) "airfoil surface") eqn:Hmark.
  { left. eexists. split; [reflexivity|]. constructor.
    apply orb_true_iff in Hmark as [H|H]; [exact H|].
    now apply startswith_contains. }
  destruct (contains "camber line" (lower (strip line)));
    [left; eexists; split; [reflexivity|constructor; discriminate]|].
  destruct (contains "chord line" (lower (strip line)));
    [left; eexists; split; [reflexivity|constructor; discriminate]|].
  destruct (contains "," (strip line) && negb (in_coordinates st)
            && negb (found_header st)) eqn:Hmeta.
  { apply andb_true_iff in Hmeta as [Hmeta Hfound].
    apply andb_true_iff in Hmeta as [_ Hin].
    apply negb_true_iff in Hfound, Hin.
    destruct (split_max "," (strip line) 1) as [|p0 [|p1 [|p2 parts]]];
      simpl; try apply outcome_none.
    destruct (nonempty p0 && nonempty p1); [|apply outcome_none].
    destruct (negb (is_column_label (strip p0))
              && negb (contains "surface" (lower (strip p0))));
      [|apply outcome_none].
    left. eexists. split; [reflexivity|]. now constructor. }
  destruct (contains "X(" (strip line) && contains "Y(" (strip line)
            || contains "x" (lower (strip line))
               && contains "y" (lower (strip line))).
  { destruct (is_surface (coordinate_section st)) eqn:Hsec;
      [|apply outcome_none].
    left. eexists. split; [reflexivity|].
    constructor. now apply is_surface_true. }
  destruct (is_surface (coordinate_section st) && contains "," (strip line))
    eqn:Hrow; [|apply outcome_none].
  apply andb_true_iff in Hrow as [Hsec _]. apply is_surface_true in Hsec.
  destruct (split "," (strip line)) as [|x_field [|y_field others]] eqn:Hsplit;
    simpl; try apply outcome_none.
  now apply parse_row_outcome.
Qed.

(** An iteration that completes has done one of the [effect]s. *)
Lemma loop_body_effect (st st' : locals) (line : string) :
  loop_body float st line = Ok st' -> effect float st line st'.
Proof.
  intros H. destruct (loop_body_outcome st line) as [(st1 & H1 & He)|Hr].
  - rewrite H in H1. injection H1 as <-. exact He.
  - destruct Hr as (s & e & H1 & _). rewrite H in H1. discriminate H1.
Qed.



End ExtractorFacts.

Section ExtractorTheorems.
Import Py CsvProcessor Spec.


(** An iteration leaves the section tag alone unless the line is a section
    marker, and only an "airfoil surface" marker sets it to [surface]. *)
Lemma effect_keeps_non_surface float (st st' : locals) (line : string) :
  effect float st line st' ->
  contains "airfoil surface" (lower (strip line)) = false ->
  coordinate_section st <> Some surface ->
  coordinate_section st' <> Some surface /\
  coordinate_data st' = coordinate_data st.
Proof.
  intros He Hline Hsec.
  inversion He; subst; simpl; try (split; [assumption|reflexivity]);
    try congruence.
  split; [congruence|reflexivity].
Qed.

(** C7.  Only a row scanned while the section tag is "surface" adds a pair
    to the coordinate sequence: an iteration either leaves the sequence as
    it is, or the tag is "surface" and one pair is appended; and a run of
    lines scanned from any other tag ("camber", "chord" or none) that holds
    no "airfoil surface" marker leaves the sequence unchanged, whatever the
    lines contain. *)
Theorem C7_only_surface_rows_are_collected
    (float : string -> result float64) :
  (forall (st st' : locals) (line : string),
      loop_body float st line = Ok st' ->
      coordinate_data st' = coordinate_data st \/
      (coordinate_section st = Some surface /\
       exists x y, coordinate_data st' = coordinate_data st ++ [(x, y)])) /\
  (forall (lines : list string) (st st' : locals),
      coordinate_section st <> Some surface ->
      Forall (fun line =>
                contains "airfoil surface" (lower (strip line)) = false) lines ->
      for_loop float lines st = Ok st' ->
      coordinate_data st' = coordinate_data st).
Proof.
  split.
  - intros st st' line H. apply loop_body_effect in H.
    inversion H; subst; simpl; auto.
    right. split; [assumption|]. eauto.
  - induction lines as [|line lines IH]; intros st st' Hsec Hlines Hloop.
    + simpl in Hloop. injection Hloop as <-. reflexivity.
    + simpl in Hloop. inversion Hlines as [|? ? Hline Hrest]; subst.
      destruct (loop_body float st line) as [st1|e] eqn:Hbody;
        [|discriminate Hloop].
      simpl in Hloop. apply loop_body_effect in Hbody.
      destruct (effect_keeps_non_surface float st st1 line Hbody Hline Hsec)
        as [Hsec1 Hdata1].
      rewrite <- Hdata1. now apply IH.
Qed.

(** A concrete instance of C7: rows under a "camber" tag. *)
Lemma C7_witness :
  exists st',
    for_loop Py.float ["0.1,0.2"; "X(mm),Y(mm)"; "0.5,0.6"]
      (set_coordinate_section camber initial) = Ok st' /\
    coordinate_data st' = coordinate_data (set_coordinate_section camber initial).
Proof.
  eexists. split; [vm_compute; reflexivity|].
  apply (proj2 (C7_only_surface_rows_are_collected Py.float)
           ["0.1,0.2"; "X(mm),Y(mm)"; "0.5,0.6"]
           (set_coordinate_section camber initial)).
  - discriminate.
  - repeat constructor.
  - vm_compute. reflexivity.
Defined.


Lemma maximum_spec (a b : float64) :
  (maximum a b = nan <-> a = nan \/ b = nan) /\
  (maximum a b <> nan ->
   (maximum a b = a \/ maximum a b = b) /\
   fle a (maximum a b) /\ fle b (maximum a b)).
Proof.
  destruct a as [p| | |], b as [q| | |]; unfold maximum; simpl;
    try (split; [split; [discriminate|intros [H|H]; discriminate H]|];
         intros _; repeat split; auto; apply Qle_refl);
    try (split; [split; auto|]; intros H; now destruct H).
  destruct (Qltb p q) eqn:Hlt.
  - apply Qltb_lt in Hlt.
    split; [split; [discriminate|intros [H|H]; discriminate H]|].
    intros _. repeat split; auto; [now apply Qlt_le_weak|apply Qle_refl].
  - apply Qltb_ge in Hlt.
    split; [split; [discriminate|intros [H|H]; discriminate H]|].
    intros _. repeat split; auto. apply Qle_refl.
Qed.

Lemma np_max_fold (a : list float64) :
  forall x0 : float64,
    let m := fold_left maximum a x0 in
    (m = nan <-> x0 = nan \/ In nan a) /\
    (m <> nan ->
     (m = x0 \/ In m a) /\ fle x0 m /\ Forall (fun v => fle v m) a).
Proof.
  induction a as [|v a IH]; intros x0; simpl.
  - split; [split; [auto|intros [H|[]]; exact H]|].
    intros H. repeat split; [now left| |constructor].
    apply fle_refl. destruct x0; try reflexivity. now destruct H.
  - destruct (IH (maximum x0 v)) as [Hnan Hmax].
    destruct (maximum_spec x0 v) as [Hn1 Hm1].
    split.
    + rewrite Hnan, Hn1. split.
      * intros [[H|H]|H]; auto.
      * intros [H|[H|H]]; auto.
    + intros Hm. destruct (Hmax Hm) as (Hin & Hle & Hall).
      assert (H1 : maximum x0 v <> nan).
      { intros H. apply Hm, Hnan. now left. }
      destruct (Hm1 H1) as (Hor & Hx0 & Hv).
      repeat split.
      * destruct Hin as [->|Hin]; [|right; now right].
        destruct Hor as [->| ->]; [now left|right; now left].
      * now apply fle_trans with (maximum x0 v).
      * constructor; [|exact Hall]. now apply fle_trans with (maximum x0 v).
Qed.

(** [np.max] is NaN exactly when the array holds a NaN. *)
Lemma np_max_nan (a : list float64) (m : float64) :
  np_max a = Ok m -> (m = nan <-> In nan a).
Proof.
  destruct a as [|x a]; simpl; [discriminate|].
  intros H. injection H as <-.
  destruct (np_max_fold a x) as [Hnan _]. rewrite Hnan.
  split; intros [H|H]; auto.
Qed.

(** Otherwise [np.max] returns an element of the array that no element
    exceeds. *)
Lemma np_max_spec (a : list float64) (m : float64) :
  np_max a = Ok m -> m <> nan -> In m a /\ Forall (fun v => fle v m) a.
Proof.
  destruct a as [|x a]; simpl; [discriminate|].
  intros H Hm. injection H as <-.
  destruct (np_max_fold a x) as [_ Hmax].
  destruct (Hmax Hm) as (Hin & Hle & Hall).
  split; [destruct Hin as [->|Hin]; [now left|now right]|].
  constructor; assumption.
Qed.

(** The division of finite values is the exact quotient. *)
Lemma truediv_correct (p q : Q) :
  ~ (q == 0)%Q ->
  exists r, truediv (finite p) (finite q) = finite r /\ (r == p / q)%Q.
Proof.
  intros Hq. exists (Qred (p / q)). split; [|apply Qred_correct].
  simpl. destruct (Qeq_bool q 0) eqn:H0; [|reflexivity].
  apply Qeq_bool_iff in H0. contradiction.
Qed.

Lemma truediv_finite (p q : Q) :
  (0 < q)%Q -> truediv (finite p) (finite q) = finite (Qred (p / q)).
Proof.
  intros Hq. simpl. destruct (Qeq_bool q 0) eqn:H0; [|reflexivity].
  apply Qeq_bool_iff in H0. rewrite H0 in Hq. now apply Qlt_irrefl in Hq.
Qed.

(** After division by a finite positive maximum the maximum is exactly 1. *)
Lemma np_max_scaled (xs : list float64) (q : Q) :
  np_max xs = Ok (finite q) ->
  (0 < q)%Q ->
  np_max (map (fun x => truediv x (finite q)) xs) = Ok (finite 1).
Proof.
  intros Hmax Hpos.
  destruct (np_max_spec xs _ Hmax) as [Hin Hall]; [discriminate|].
  rewrite List.Forall_forall in Hall.
  assert (Hq0 : Qltb q 0 = false).
  { apply Qltb_ge. now apply Qlt_le_weak. }
  destruct (np_max (map (fun x => truediv x (finite q)) xs)) as [m'|e] eqn:Hm'.
  2:{ destruct xs; [destruct Hin|discriminate Hm']. }
  assert (Hnn : m' <> nan).
  { intros Hn. apply (np_max_nan _ _ Hm') in Hn.
    apply List.in_map_iff in Hn as (x & Hx & Hxin).
    specialize (Hall x Hxin).
    destruct x as [p| | |]; simpl in Hall; try contradiction.
    - rewrite (truediv_finite p q Hpos) in Hx. discriminate Hx.
    - simpl in Hx. rewrite Hq0 in Hx. discriminate Hx. }
  destruct (np_max_spec _ _ Hm' Hnn) as [Hin' Hall'].
  rewrite List.Forall_forall in Hall'.
  assert (Hone : fle (finite 1) m').
  { assert (H1 : truediv (finite q) (finite q) = finite 1).
    { rewrite (truediv_finite q q Hpos). f_equal.
      apply (Qred_complete (q / q) 1). apply Qmult_inv_r.
      intros H0. rewrite H0 in Hpos. now apply Qlt_irrefl in Hpos. }
    rewrite <- H1. apply Hall'. apply List.in_map_iff. eauto. }
  apply List.in_map_iff in Hin' as (x & Hx & Hxin).
  specialize (Hall x Hxin).
  destruct x as [p| | |]; simpl in Hall; try contradiction.
  - rewrite (truediv_finite p q Hpos) in Hx. subst m'. simpl in Hone.
    f_equal. f_equal. apply (Qred_complete (p / q) 1).
    apply Qle_antisym.
    + apply Qle_shift_div_r; [exact Hpos|]. now rewrite Qmult_1_l.
    + now rewrite <- (Qred_correct (p / q)).
  - simpl in Hx. rewrite Hq0 in Hx. subst m'. destruct Hone.
Qed.

(** After division by an infinite maximum the maximum is NaN. *)
Lemma np_max_scaled_inf (xs : list float64) :
  np_max xs = Ok pos_inf ->
  np_max (map (fun x => truediv x pos_inf) xs) = Ok nan.
Proof.
  intros Hmax.
  destruct (np_max_spec xs _ Hmax) as [Hin _]; [discriminate|].
  destruct (np_max (map (fun x => truediv x pos_inf) xs)) as [m'|e] eqn:Hm'.
  2:{ destruct xs; [destruct Hin|discriminate Hm']. }
  f_equal. apply (np_max_nan _ _ Hm').
  apply List.in_map_iff. exists pos_inf. split; [reflexivity|exact Hin].
Qed.

(** What the extractor returns once the loop has ended in state [st]. *)
Lemma parse_after_loop (float : string -> result float64)
    (read_text : string -> result string)
    (csv_file_path content : string) (st : locals) :
  read_text csv_file_path = Ok content ->
  for_loop float (lines_of content) initial = Ok st ->
  match coordinate_data st with
  | [] =>
      parse_airfoil_csv float read_text csv_file_path
      = Raise NoCoordinateDataError
  | _ :: _ =>
      exists max_x,
        np_max (map fst (coordinate_data st)) = Ok max_x /\
        parse_airfoil_csv float read_text csv_file_path
        = Ok (if fltb (finite 10) max_x
              then (map (fun x => truediv x max_x)
                      (map fst (coordinate_data st)),
                    map (fun y => truediv y max_x)
                      (map snd (coordinate_data st)))
              else (map fst (coordinate_data st),
                    map snd (coordinate_data st)),
              airfoil_name st, metadata st)
  end.
Proof.
  intros Hread Hloop.
  unfold parse_airfoil_csv, parse_body. unfold lines_of in Hloop.
  rewrite Hread. cbv beta iota delta [bind]. rewrite Hloop.
  destruct (coordinate_data st) as [|c cs]; [reflexivity|].
  eexists. split; [reflexivity|].
  cbv beta iota. simpl np_max. cbv beta iota.
  destruct (fltb (finite 10) _); reflexivity.
Qed.




(** C4, as the code has it.  Once the loop has collected a non-empty
    sequence, [max_x] is [np.max] of its x values: NaN exactly when one of
    them is NaN, and otherwise one of them that no x exceeds.  If [max_x] is
    finite and above 10, every x and every y returned is the collected one
    divided by [max_x], and the maximum of the returned x values is 1.  If
    [max_x] is at most 10, or NaN (whatever the other x values are), the
    collected values are returned as they are.  If [max_x] is the infinity
    of a row such as "inf" or "1e400", every value is divided by it, which
    turns the finite ones into 0 and the infinite ones into NaN, and the
    maximum of the returned x values is NaN. *)
Theorem C4_rescale_by_finite_max_x_above_10
    (float : string -> result float64) (read_text : string -> result string)
    (csv_file_path content : string) (st : locals) :
  read_text csv_file_path = Ok content ->
  for_loop float (lines_of content) initial = Ok st ->
  coordinate_data st <> [] ->
  exists max_x,
    np_max (map fst (coordinate_data st)) = Ok max_x /\
    (max_x = nan <-> In nan (map fst (coordinate_data st))) /\
    (max_x <> nan ->
       In max_x (map fst (coordinate_data st)) /\
       Forall (fun x => fle x max_x) (map fst (coordinate_data st))) /\
    (forall q : Q, max_x = finite q -> (10 < q)%Q ->
       parse_airfoil_csv float read_text csv_file_path
       = Ok (map (fun xy => truediv (fst xy) max_x) (coordinate_data st),
             map (fun xy => truediv (snd xy) max_x) (coordinate_data st),
             airfoil_name st, metadata st) /\
       np_max (map (fun xy => truediv (fst xy) max_x) (coordinate_data st))
       = Ok (finite 1) /\
       forall p : Q, exists r : Q,
         truediv (finite p) max_x = finite r /\ (r == p / q)%Q) /\
    (forall q : Q, max_x = finite q -> (q <= 10)%Q ->
       parse_airfoil_csv float read_text csv_file_path
       = Ok (map fst (coordinate_data st), map snd (coordinate_data st),
             airfoil_name st, metadata st)) /\
    (max_x = nan \/ max_x = neg_inf ->
       parse_airfoil_csv float read_text csv_file_path
       = Ok (map fst (coordinate_data st), map snd (coordinate_data st),
             airfoil_name st, metadata st)) /\
    (max_x = pos_inf ->
       parse_airfoil_csv float read_text csv_file_path
       = Ok (map (fun xy => truediv (fst xy) pos_inf) (coordinate_data st),
             map (fun xy => truediv (snd xy) pos_inf) (coordinate_data st),
             airfoil_name st, metadata st) /\
       np_max (map (fun xy => truediv (fst xy) pos_inf) (coordinate_data st))
       = Ok nan /\
       (forall p : Q, truediv (finite p) pos_inf = finite 0) /\
       truediv pos_inf pos_inf = nan /\ truediv neg_inf pos_inf = nan).
Proof.
  intros Hread Hloop Hne.
  pose proof (parse_after_loop float read_text csv_file_path content st
                Hread Hloop) as Hparse.
  destruct (coordinate_data st) as [|c cs] eqn:Hcs; [contradiction|].
  destruct Hparse as (max_x & Hmax & Hparse).
  exists max_x. split; [exact Hmax|].
  split; [exact (np_max_nan _ _ Hmax)|].
  split; [exact (np_max_spec _ _ Hmax)|].
  split; [|split; [|split]].
  - intros q -> Hgt. rewrite Hparse.
    assert (Hpos : (0 < q)%Q) by (eapply Qlt_trans; [|exact Hgt]; reflexivity).
    apply Qltb_lt in Hgt as Hb. simpl fltb. rewrite Hb. rewrite !map_map.
    split; [reflexivity|]. split.
    + rewrite <- (map_map fst (fun x => truediv x (finite q))).
      now apply np_max_scaled.
    + intros p. apply truediv_correct.
      intros H0. rewrite H0 in Hpos. now apply Qlt_irrefl in Hpos.
  - intros q -> Hle. rewrite Hparse.
    apply Qltb_ge in Hle. simpl fltb. rewrite Hle. reflexivity.
  - intros [-> | ->]; rewrite Hparse; reflexivity.
  - intros ->. rewrite Hparse. simpl fltb. cbv iota. rewrite !map_map.
    split; [reflexivity|]. split.
    + rewrite <- (map_map fst (fun x => truediv x pos_inf)).
      now apply np_max_scaled_inf.
    + repeat split.
Qed.

(** A concrete instance of C4: a section in millimetres, maximum x 200. *)
Lemma C4_witness :
  exists max_x,
    np_max (map fst [(finite 200, finite 10); (finite 100, finite (-5))])
    = Ok max_x /\
    (max_x = nan
     <-> In nan (map fst [(finite 200, finite 10);
                          (finite 100, finite (-5))])) /\
    (max_x <> nan ->
       In max_x (map fst [(finite 200, finite 10);
                          (finite 100, finite (-5))]) /\
       Forall (fun x => fle x max_x)
         (map fst [(finite 200, finite 10); (finite 100, finite (-5))])) /\
    (forall q : Q, max_x = finite q -> (10 < q)%Q ->
       parse_airfoil_csv Py.float
         (fun _ => Ok ("Airfoil surface" ++ newline ++ "200,10"
                       ++ newline ++ "100,-5")%string) "airfoil.csv"
       = Ok (map (fun xy => truediv (fst xy) max_x)
               [(finite 200, finite 10); (finite 100, finite (-5))],
             map (fun xy => truediv (snd xy) max_x)
               [(finite 200, finite 10); (finite 100, finite (-5))],
             "Unknown Airfoil", ∅) /\
       np_max (map (fun xy => truediv (fst xy) max_x)
                 [(finite 200, finite 10); (finite 100, finite (-5))])
       = Ok (finite 1) /\
       forall p : Q, exists r : Q,
         truediv (finite p) max_x = finite r /\ (r == p / q)%Q) /\
    (forall q : Q, max_x = finite q -> (q <= 10)%Q ->
       parse_airfoil_csv Py.float
         (fun _ => Ok ("Airfoil surface" ++ newline ++ "200,10"
                       ++ newline ++ "100,-5")%string) "airfoil.csv"
       = Ok (map fst [(finite 200, finite 10); (finite 100, finite (-5))],
             map snd [(finite 200, finite 10); (finite 100, finite (-5))],
             "Unknown Airfoil", ∅)) /\
    (max_x = nan \/ max_x = neg_inf ->
       parse_airfoil_csv Py.float
         (fun _ => Ok ("Airfoil surface" ++ newline ++ "200,10"
                       ++ newline ++ "100,-5")%string) "airfoil.csv"
       = Ok (map fst [(finite 200, finite 10); (finite 100, finite (-5))],
             map snd [(finite 200, finite 10); (finite 100, finite (-5))],
             "Unknown Airfoil", ∅)) /\
    (max_x = pos_inf ->
       parse_airfoil_csv Py.float
         (fun _ => Ok ("Airfoil surface" ++ newline ++ "200,10"
                       ++ newline ++ "100,-5")%string) "airfoil.csv"
       = Ok (map (fun xy => truediv (fst xy) pos_inf)
               [(finite 200, finite 10); (finite 100, finite (-5))],
             map (fun xy => truediv (snd xy) pos_inf)
               [(finite 200, finite 10); (finite 100, finite (-5))],
             "Unknown Airfoil", ∅) /\
       np_max (map (fun xy => truediv (fst xy) pos_inf)
                 [(finite 200, finite 10); (finite 100, finite (-5))])
       = Ok nan /\
       (forall p : Q, truediv (finite p) pos_inf = finite 0) /\
       truediv pos_inf pos_inf = nan /\ truediv neg_inf pos_inf = nan).
Proof.
  apply (C4_rescale_by_finite_max_x_above_10 Py.float
           (fun _ => Ok ("Airfoil surface" ++ newline ++ "200,10"
                         ++ newline ++ "100,-5")%string)
           "airfoil.csv"
           ("Airfoil surface" ++ newline ++ "200,10"
            ++ newline ++ "100,-5")%string
           (Locals "Unknown Airfoil" ∅
              [(finite 200, finite 10); (finite 100, finite (-5))]
              false (Some surface) true)).
  - reflexivity.
  - vm_compute. reflexivity.
  - discriminate.
Defined.

(** C4 as stated fails on the code.  In the text
      Airfoil surface / inf,0 / 5,0
    the maximum of the collected x values, infinity, exceeds 10, and the
    values are divided by it; but the x values returned are NaN and 0, and
    their maximum is NaN, not 1.  In the text
      Airfoil surface / nan,0 / 200,0
    a collected x, 200, exceeds 10, yet [np.max] is NaN, the test
    [max_x > 10] fails, and the values are returned undivided. *)
Lemma C4_counterexample :
  for_loop Py.float
    (lines_of ("Airfoil surface" ++ newline ++ "inf,0" ++ newline ++ "5,0"))
    initial
  = Ok (Locals "Unknown Airfoil" ∅
          [(pos_inf, finite 0); (finite 5, finite 0)]
          false (Some surface) true) /\
  np_max [pos_inf; finite 5] = Ok pos_inf /\
  fltb (finite 10) pos_inf = true /\
  parse_airfoil_csv Py.float
    (fun _ => Ok ("Airfoil surface" ++ newline ++ "inf,0" ++ newline
                  ++ "5,0")%string) "airfoil.csv"
  = Ok ([nan; finite 0], [finite 0; finite 0], "Unknown Airfoil", ∅) /\
  np_max [nan; finite 0] = Ok nan /\
  np_max [nan; finite 0] <> Ok (finite 1) /\
  for_loop Py.float
    (lines_of ("Airfoil surface" ++ newline ++ "nan,0" ++ newline
               ++ "200,0"))
    initial
  = Ok (Locals "Unknown Airfoil" ∅
          [(nan, finite 0); (finite 200, finite 0)]
          false (Some surface) true) /\
  fltb (finite 10) (finite 200) = true /\
  np_max [nan; finite 200] = Ok nan /\
  parse_airfoil_csv Py.float
    (fun _ => Ok ("Airfoil surface" ++ newline ++ "nan,0" ++ newline
                  ++ "200,0")%string) "airfoil.csv"
  = Ok ([nan; finite 200], [finite 0; finite 0], "Unknown Airfoil", ∅).
Proof.
  repeat split; try (vm_compute; reflexivity). discriminate.
Qed.

(** Metadata is captured only while neither flag is set, and the
    "airfoil surface" marker ends the capture for good. *)
Lemma metadata_only_before_surface_marker
    (float : string -> result float64) :
  (forall (st st' : locals) (line : string),
      loop_body float st line = Ok st' ->
      metadata st' <> metadata st ->
      found_header st = false /\ in_coordinates st = false) /\
  (forall (lines : list string) (st st' : locals),
      found_header st = true ->
      for_loop float lines st = Ok st' ->
      metadata st' = metadata st /\ found_header st' = true).
Proof.
  split.
  - intros st st' line H Hne. apply loop_body_effect in H.
    inversion H; subst; simpl in Hne; try contradiction. now split.
  - induction lines as [|line lines IH]; intros st st' Hfound Hloop;
      simpl in Hloop.
    + injection Hloop as <-. now split.
    + destruct (loop_body float st line) as [st1|e] eqn:Hbody;
        [|discriminate Hloop].
      simpl in Hloop. apply loop_body_effect in Hbody.
      assert (H1 : metadata st1 = metadata st /\ found_header st1 = true).
      { inversion Hbody; subst; simpl; try (now split). congruence. }
      destruct H1 as [Hm Hf]. rewrite <- Hm. now apply IH.
Qed.

(** C6.  A "camber line" marker does not end the metadata capture: in the
    text
      Camber line / 0.5,0.1 / Airfoil surface / 1.0,0.0
    the row "0.5,0.1", scanned after the marker, is returned as the metadata
    entry "0.5" -> "0.1". *)
Theorem C6_metadata_captured_after_camber_marker :
  parse_airfoil_csv Py.float
    (fun _ => Ok ("Camber line" ++ newline ++ "0.5,0.1" ++ newline
                  ++ "Airfoil surface" ++ newline ++ "1.0,0.0")%string)
    "airfoil.csv"
  = Ok ([finite 1], [finite 0], "Unknown Airfoil", <["0.5" := "0.1"]> ∅).
Proof. vm_compute. reflexivity. Qed.

End ExtractorTheorems.

(* ================================================================== *)
(** * Properties of the request layer *)
(* ================================================================== *)

Section RouteTheorems.
Import Py CsvProcessor Routes Spec.

(** What the extractor does with an unreadable source: whatever [open] or
    [read] raised comes out as a [ValueError] carrying its message. *)
Lemma parse_unreadable (float : string -> result float64)
    (read_text : string -> result string) (csv_file_path : string) (e : exn) :
  read_text csv_file_path = Raise e ->
  parse_airfoil_csv float read_text csv_file_path
  = Raise (Exn ValueError ("Error parsing CSV file: " ++ str e)).
Proof.
  intros H. unfold parse_airfoil_csv, parse_body. rewrite H. reflexivity.
Qed.

(** C5, as the code has it.  For an upload that reaches the extractor: when
    the source cannot be read, the extractor raises a [ValueError] whose
    message is "Error parsing CSV file: " followed by the message of the
    I/O error; when no coordinate pair is collected, it raises the
    [ValueError] "Error parsing CSV file: No valid coordinate data found in
    CSV file".  The request layer answers both with status 500 and that
    message as the error text, and with no coordinates. *)
Theorem C5_failures_wrapped_as_ValueError_status_500
    (float : string -> result float64) (save_upload : upload -> result string)
    (read_text : string -> result string)
    (req : request) (file : upload) (temp_path : string) :
  csv_file req = Some file ->
  (filename file =? "")%string = false ->
  save_upload file = Ok temp_path ->
  (forall e : exn,
      read_text temp_path = Raise e ->
      parse_airfoil_csv float read_text temp_path
      = Raise (Exn ValueError ("Error parsing CSV file: " ++ str e)) /\
      process_csv float save_upload read_text req
      = Response (error_payload ("Error parsing CSV file: " ++ str e)) 500) /\
  (forall (content : string) (st : locals),
      read_text temp_path = Ok content ->
      for_loop float (lines_of content) initial = Ok st ->
      coordinate_data st = [] ->
      parse_airfoil_csv float read_text temp_path
      = Raise NoCoordinateDataError /\
      process_csv float save_upload read_text req
      = Response (error_payload (str NoCoordinateDataError)) 500).
Proof.
  intros Hfile Hname Hsave. split.
  - intros e Hread.
    pose proof (parse_unreadable float read_text temp_path e Hread) as Hp.
    split; [exact Hp|].
    unfold process_csv, process_csv_body.
    rewrite Hfile, Hname, Hsave. cbv beta iota delta [bind].
    rewrite Hp. reflexivity.
  - intros content st Hread Hloop Hnone.
    pose proof (parse_after_loop float read_text temp_path content st
                  Hread Hloop) as Hp.
    rewrite Hnone in Hp. split; [exact Hp|].
    unfold process_csv, process_csv_body.
    rewrite Hfile, Hname, Hsave. cbv beta iota delta [bind].
    rewrite Hp. reflexivity.
Qed.

(** A concrete instance of C5: an upload stored at "upload.csv". *)
Lemma C5_witness :
  (forall e : exn,
      (fun _ : string => Ok "Airfoil surface") "upload.csv" = Raise e ->
      parse_airfoil_csv Py.float (fun _ => Ok "Airfoil surface")
        "upload.csv"
      = Raise (Exn ValueError ("Error parsing CSV file: " ++ str e)) /\
      process_csv Py.float (fun _ => Ok "upload.csv")
        (fun _ => Ok "Airfoil surface")
        (Request (Some (Upload "wing.csv" "Airfoil surface")) None)
      = Response (error_payload ("Error parsing CSV file: " ++ str e)) 500) /\
  (forall (content : string) (st : locals),
      (fun _ : string => Ok "Airfoil surface") "upload.csv" = Ok content ->
      for_loop Py.float (lines_of content) initial = Ok st ->
      coordinate_data st = [] ->
      parse_airfoil_csv Py.float (fun _ => Ok "Airfoil surface")
        "upload.csv"
      = Raise NoCoordinateDataError /\
      process_csv Py.float (fun _ => Ok "upload.csv")
        (fun _ => Ok "Airfoil surface")
        (Request (Some (Upload "wing.csv" "Airfoil surface")) None)
      = Response (error_payload (str NoCoordinateDataError)) 500).
Proof.
  apply (C5_failures_wrapped_as_ValueError_status_500 Py.float
           (fun _ => Ok "upload.csv") (fun _ => Ok "Airfoil surface")
           (Request (Some (Upload "wing.csv" "Airfoil surface")) None)
           (Upload "wing.csv" "Airfoil surface") "upload.csv");
    reflexivity.
Defined.

(** C5 as stated fails on the code.  An upload without coordinate data is
    answered with status 500, not with a 4xx status, the same status as an
    unreadable source; and for an unreadable source the extractor raises a
    [ValueError] with a message of its own, not the I/O error it met. *)
Lemma C5_counterexample :
  status (process_csv Py.float (fun _ => Ok "upload.csv")
            (fun _ => Ok "Airfoil surface")
            (Request (Some (Upload "wing.csv" "Airfoil surface")) None))
  = 500%Z /\
  ~ (400 <= status (process_csv Py.float (fun _ => Ok "upload.csv")
                      (fun _ => Ok "Airfoil surface")
                      (Request (Some (Upload "wing.csv" "Airfoil surface"))
                         None)) < 500)%Z /\
  status (process_csv Py.float (fun _ => Ok "upload.csv")
            (fun _ => Raise (Exn OSError "[Errno 13] Permission denied"))
            (Request (Some (Upload "wing.csv" "Airfoil surface")) None))
  = 500%Z /\
  parse_airfoil_csv Py.float
    (fun _ => Raise (Exn OSError "[Errno 13] Permission denied")) "upload.csv"
  = Raise (Exn ValueError
             "Error parsing CSV file: [Errno 13] Permission denied").
Proof.
  split; [reflexivity|].
  split; [vm_compute; intros [_ H]; discriminate H|].
  split; reflexivity.
Qed.

End RouteTheorems.

(* ================================================================== *)
(** * More on the generator *)
(* ================================================================== *)

Section GeneratorExtras.
Import Py NacaGenerator.

Lemma isdigit_char_cases (c : ascii) :
  isdigit_char c = true ->
  In c ["0"; "1"; "2"; "3"; "4"; "5"; "6"; "7"; "8"; "9";
        ascii_of_nat 178; ascii_of_nat 179; ascii_of_nat 185]%char.
Proof.
  destruct c as [[] [] [] [] [] [] [] []]; vm_compute; intros H;
    try discriminate H; tauto.
Qed.

Lemma int_digit_inv (c : ascii) (v : Z) :
  isdigit_char c = true ->
  int (String c EmptyString) = Ok v -> isdecimal c = true.
Proof.
  intros H. apply isdigit_char_cases in H. simpl in H.
  repeat (destruct H as [<-|H];
          [vm_compute; intros H'; first [reflexivity|discriminate H']|]).
  destruct H.
Qed.

Lemma int_two_digits_inv (c d : ascii) (v : Z) :
  isdigit_char c = true -> isdigit_char d = true ->
  int (String c (String d EmptyString)) = Ok v ->
  isdecimal c = true /\ isdecimal d = true.
Proof.
  intros Hc Hd. apply isdigit_char_cases in Hc, Hd. simpl in Hc, Hd.
  repeat (destruct Hc as [<-|Hc];
          [repeat (destruct Hd as [<-|Hd];
                   [vm_compute; intros H';
                    first [split; reflexivity|discriminate H']|]);
           destruct Hd|]).
  destruct Hc.
Qed.

Lemma int_raises_ValueError (s : string) (e : exn) :
  int s = Raise e -> exn_cls e = ValueError.
Proof.
  unfold int.
  repeat match goal with
         | |- context [match ?x with _ => _ end] => destruct x
         end;
    intros H; try discriminate H; injection H as <-; reflexivity.
Qed.

Lemma stations_raises_ValueError (num_points : Z) (e : exn) :
  stations num_points = Raise e ->
  exn_cls e = ValueError /\ (num_points < 0)%Z.
Proof.
  unfold stations, linspace.
  destruct (Z.ltb_spec num_points 0) as [Hn|Hn]; simpl; intros H;
    [|discriminate H].
  injection H as <-. split; [reflexivity|exact Hn].
Qed.

(** What the generator returns once its three reads have succeeded. *)
Lemma generate_ok (format_f : nat -> R -> string) (naca_code : string)
    (num_points : Z) (m p t : R) (x : list R) :
  String.length naca_code = 4%nat ->
  isdigit naca_code = true ->
  naca_parameters naca_code = Ok (m, p, t) ->
  stations num_points = Ok x ->
  exists header_info,
    generate_naca_4digit format_f naca_code num_points
    = Ok (rev (fst (fst (surfaces m p t x)))
            ++ tl (fst (snd (surfaces m p t x))),
          rev (snd (fst (surfaces m p t x)))
            ++ tl (snd (snd (surfaces m p t x))),
          header_info).
Proof.
  intros Hlen Hdigit Hpar Hx.
  unfold generate_naca_4digit. rewrite Hlen, Hdigit, Hpar, Hx.
  cbv beta iota delta [bind negb orb Nat.eqb].
  unfold surfaces.
  destruct (camber m p x) as [yc dyc_dx].
  destruct (upper_surface _ _ _ _) as [xu yu].
  destruct (lower_surface _ _ _ _) as [xl yl].
  eexists. reflexivity.
Qed.

(** The generator either returns, and then the code is valid and the count
    not negative, or raises a [ValueError]. *)
Lemma generate_cases (format_f : nat -> R -> string) (naca_code : string)
    (num_points : Z) :
  match generate_naca_4digit format_f naca_code num_points with
  | Ok _ => valid_code naca_code /\ (0 <= num_points)%Z
  | Raise e => exn_cls e = ValueError
  end.
Proof.
  unfold generate_naca_4digit.
  destruct (Nat.eqb_spec (String.length naca_code) 4) as [Hlen|Hlen];
    [|reflexivity].
  destruct (isdigit naca_code) eqn:Hdigit; [|reflexivity].
  cbv beta iota delta [negb orb].
  destruct naca_code as [|c0 [|c1 [|c2 [|c3 [|]]]]]; try discriminate Hlen.
  unfold isdigit in Hdigit. simpl in Hdigit.
  apply andb_true_iff in Hdigit as [H0 Hdigit].
  apply andb_true_iff in Hdigit as [H1 Hdigit].
  apply andb_true_iff in Hdigit as [H2 Hdigit].
  apply andb_true_iff in Hdigit as [H3 _].
  unfold naca_parameters, str_getitem, str_slice. simpl String.get.
  simpl substring. cbv beta iota delta [bind].
  destruct (int (String c0 EmptyString)) as [i0|e] eqn:E0;
    [|exact (int_raises_ValueError _ _ E0)].
  cbv beta iota.
  destruct (int (String c1 EmptyString)) as [i1|e] eqn:E1;
    [|exact (int_raises_ValueError _ _ E1)].
  cbv beta iota.
  destruct (int (String c2 (String c3 EmptyString))) as [i2|e] eqn:E2;
    [|exact (int_raises_ValueError _ _ E2)].
  cbv beta iota.
  destruct (stations num_points) as [x|e] eqn:Ex;
    [|exact (proj1 (stations_raises_ValueError _ _ Ex))].
  cbv beta iota.
  destruct (camber _ _ x) as [yc dyc_dx].
  destruct (upper_surface _ _ _ _) as [xu yu].
  destruct (lower_surface _ _ _ _) as [xl yl].
  split.
  - split; [reflexivity|]. simpl.
    rewrite (int_digit_inv c0 i0 H0 E0), (int_digit_inv c1 i1 H1 E1).
    destruct (int_two_digits_inv c2 c3 i2 H2 H3 E2) as [-> ->].
    reflexivity.
  - destruct (Z.lt_ge_cases num_points 0) as [Hneg|Hge]; [|exact Hge].
    unfold stations, linspace in Ex.
    destruct (Z.ltb_spec num_points 0) as [_|H]; [discriminate Ex|lia].
Qed.

(** For a valid code the generator returns [2n - 1] points. *)
Lemma generate_valid (format_f : nat -> R -> string) (naca_code : string)
    (num_points : Z) :
  valid_code naca_code -> (0 <= num_points)%Z ->
  exists x_coords y_coords header_info,
    generate_naca_4digit format_f naca_code num_points
    = Ok (x_coords, y_coords, header_info) /\
    List.length x_coords
    = (Z.to_nat num_points + (Z.to_nat num_points - 1))%nat /\
    List.length y_coords = List.length x_coords.
Proof.
  intros Hcode Hn.
  destruct (valid_code_inv naca_code Hcode)
    as (c0 & c1 & c2 & c3 & Hshape & Hdigit & Hpar).
  destruct (stations_length num_points Hn) as (x & Hx & Hlen).
  destruct (generate_ok format_f naca_code num_points _ _ _ x
              (proj1 Hcode) Hdigit Hpar Hx) as [h ->].
  eexists _, _, _. split; [reflexivity|].
  pose proof (surfaces_length (IZR (digit_value c0) / 100)
                (IZR (digit_value c1) / 10)
                (IZR (10 * digit_value c2 + digit_value c3) / 100) x) as HL.
  destruct (surfaces _ _ _ x) as [[xu yu] [xl yl]].
  destruct HL as (Hxu & Hyu & Hxl & Hyl). cbn [fst snd].
  rewrite !length_app, !length_rev.
  destruct xl, yl; simpl in *; lia.
Qed.

(** X1.  The generator returns a result exactly for a code of four decimal
    digits and a point count that is not negative; whatever else it is
    given, the exception it raises is a [ValueError]. *)
Theorem X1_generate_succeeds_iff_valid_code
    (format_f : nat -> R -> string) (naca_code : string) (num_points : Z) :
  ((exists r, generate_naca_4digit format_f naca_code num_points = Ok r)
   <-> valid_code naca_code /\ (0 <= num_points)%Z) /\
  (forall e,
      generate_naca_4digit format_f naca_code num_points = Raise e ->
      exn_cls e = ValueError).
Proof.
  pose proof (generate_cases format_f naca_code num_points) as Hcases.
  split; [split|].
  - intros [r Hr]. rewrite Hr in Hcases. exact Hcases.
  - intros [Hcode Hn].
    destruct (generate_valid format_f naca_code num_points Hcode Hn)
      as (xs & ys & h & -> & _).
    eexists. reflexivity.
  - intros e He. rewrite He in Hcases. exact Hcases.
Qed.

Lemma surfaces_pointwise (x yts yc theta : list R) :
  List.length yts = List.length x ->
  List.length yc = List.length x ->
  List.length theta = List.length x ->
  let '(xu, yu) := upper_surface x yts yc theta in
  let '(xl, yl) := lower_surface x yts yc theta in
  map2 Rplus xu xl = map (fun v => 2 * v)%R x /\
  map2 Rplus yu yl = map (fun v => 2 * v)%R yc /\
  map2 Rplus (map2 (fun a b => (a - b) ^ 2)%R xu xl)
             (map2 (fun a b => (a - b) ^ 2)%R yu yl)
  = map (fun v => (2 * v) ^ 2)%R yts.
Proof.
  unfold upper_surface, lower_surface. revert yts yc theta.
  induction x as [|v x IH]; intros [|y yts] [|c yc] [|th theta] H1 H2 H3;
    try discriminate; cbn [map2 map]; [repeat split|].
  injection H1 as H1. injection H2 as H2. injection H3 as H3.
  destruct (IH yts yc theta H1 H2 H3) as (Ha & Hb & Hc).
  rewrite Ha, Hb, Hc.
  assert (Hsc : (sin th ^ 2 + cos th ^ 2 = 1)%R).
  { rewrite <- !Rsqr_pow2. apply sin2_cos2. }
  repeat split; f_equal; try ring.
  transitivity ((2 * y) ^ 2 * (sin th ^ 2 + cos th ^ 2))%R; [ring|].
  rewrite Hsc. ring.
Qed.

(** X2.  At every station, for any parameters: the camber line lies midway
    between the upper and the lower point ([xu + xl = 2x],
    [yu + yl = 2yc]), and the two points are [2 yt] apart. *)
Theorem X2_camber_line_midway_between_surfaces (m p t : R) (x : list R) :
  map2 Rplus (fst (fst (surfaces m p t x))) (fst (snd (surfaces m p t x)))
  = map (fun v => 2 * v)%R x /\
  map2 Rplus (snd (fst (surfaces m p t x))) (snd (snd (surfaces m p t x)))
  = map (fun v => 2 * v)%R (fst (camber m p x)) /\
  map2 Rplus
    (map2 (fun a b => (a - b) ^ 2)%R
       (fst (fst (surfaces m p t x))) (fst (snd (surfaces m p t x))))
    (map2 (fun a b => (a - b) ^ 2)%R
       (snd (fst (surfaces m p t x))) (snd (snd (surfaces m p t x))))
  = map (fun v => (2 * yt t v) ^ 2)%R x.
Proof.
  unfold surfaces.
  destruct (camber_length m p x) as [Hc Hd].
  destruct (camber m p x) as [yc dyc_dx]. simpl in Hc, Hd.
  pose proof (surfaces_pointwise x (map (yt t) x) yc (map atan dyc_dx)) as H.
  rewrite !length_map in H. specialize (H eq_refl Hc Hd).
  destruct (upper_surface _ _ _ _) as [xu yu].
  destruct (lower_surface _ _ _ _) as [xl yl].
  cbn [fst snd]. destruct H as (Ha & Hb & Hc'). rewrite Ha, Hb, Hc', map_map.
  repeat split.
Qed.

Lemma Rltb_true (a b : R) : Rltb a b = true -> (a < b)%R.
Proof. unfold Rltb. destruct (Rlt_dec a b); [auto|discriminate]. Qed.

Lemma Rltb_lt_true (a b : R) : (a < b)%R -> Rltb a b = true.
Proof. unfold Rltb. intros H. destruct (Rlt_dec a b); [auto|contradiction]. Qed.

Lemma Rltb_ge_false (a b : R) : (b <= a)%R -> Rltb a b = false.
Proof. unfold Rltb. intros H. destruct (Rlt_dec a b); [lra|auto]. Qed.

Lemma Rleb_le_true (a b : R) : (a <= b)%R -> Rleb a b = true.
Proof. unfold Rleb. intros H. destruct (Rle_dec a b); [auto|contradiction]. Qed.

Lemma Rleb_gt_false (a b : R) : (b < a)%R -> Rleb a b = false.
Proof. unfold Rleb. intros H. destruct (Rle_dec a b); [lra|auto]. Qed.

(** The camber line starts at zero, with or without camber. *)
Lemma camber_leading_edge (m p : R) (x' : list R) :
  exists yc' d0 d', camber m p (0%R :: x') = (0%R :: yc', d0 :: d').
Proof.
  unfold camber. destruct (Rltb 0 m && Rltb 0 p) eqn:Hc.
  - apply andb_true_iff in Hc as [_ Hp]. apply Rltb_true in Hp.
    simpl. rewrite (Rleb_le_true 0 p) by lra.
    rewrite (Rltb_ge_false p 0) by lra.
    replace (m / (p * (p * 1)) * (2 * p * 0 - 0 * (0 * 1)))%R with 0%R
      by (unfold Rdiv; ring).
    eexists _, _, _. reflexivity.
  - simpl. eexists _, _, _. reflexivity.
Qed.

Lemma nth_error_rev_last {A} (a : A) (l tail : list A) :
  nth_error (rev (a :: l) ++ tail) (List.length l) = Some a.
Proof.
  simpl. rewrite <- app_assoc.
  rewrite nth_error_app2 by (rewrite length_rev; lia).
  rewrite length_rev, Nat.sub_diag. reflexivity.
Qed.

(** At the leading edge both surfaces pass through the origin. *)
Lemma surfaces_leading_edge (m p t : R) (x' : list R) :
  exists xu' yu' xl' yl',
    surfaces m p t (0%R :: x') = ((0%R :: xu', 0%R :: yu'), (xl', yl')) /\
    List.length xu' = List.length x' /\ List.length yu' = List.length x'.
Proof.
  unfold surfaces.
  destruct (camber_length m p (0%R :: x')) as [Hc Hd].
  destruct (camber_leading_edge m p x') as (yc' & d0 & d' & E).
  rewrite E in Hc, Hd |- *. simpl in Hc, Hd.
  unfold upper_surface, lower_surface. cbn [map map2].
  rewrite yt_leading_edge.
  replace (0 - 0 * sin (atan d0))%R with 0%R by ring.
  replace (0 + 0 * cos (atan d0))%R with 0%R by ring.
  eexists _, _, _, _. split; [reflexivity|].
  rewrite !map2_length, !length_map. lia.
Qed.

(** X3.  For a valid code and a point count [n >= 1] the point at index
    [n - 1] of the output, where the reversed upper surface ends, is the
    origin [(0, 0)], whatever the camber and the thickness. *)
Theorem X3_leading_edge_point_is_origin
    (format_f : nat -> R -> string) (naca_code : string) (num_points : Z) :
  valid_code naca_code ->
  (1 <= num_points)%Z ->
  exists x_coords y_coords header_info,
    generate_naca_4digit format_f naca_code num_points
    = Ok (x_coords, y_coords, header_info) /\
    nth_error x_coords (Z.to_nat num_points - 1) = Some 0%R /\
    nth_error y_coords (Z.to_nat num_points - 1) = Some 0%R.
Proof.
  intros Hcode Hn.
  destruct (valid_code_inv naca_code Hcode)
    as (c0 & c1 & c2 & c3 & Hshape & Hdigit & Hpar).
  destruct (stations_head num_points Hn) as (x' & Hx).
  destruct (stations_length num_points ltac:(lia)) as (x & Hx2 & Hlen).
  rewrite Hx in Hx2. injection Hx2 as <-. simpl in Hlen.
  destruct (generate_ok format_f naca_code num_points _ _ _ _
              (proj1 Hcode) Hdigit Hpar Hx) as [h ->].
  eexists _, _, _. split; [reflexivity|].
  destruct (surfaces_leading_edge (IZR (digit_value c0) / 100)
              (IZR (digit_value c1) / 10)
              (IZR (10 * digit_value c2 + digit_value c3) / 100) x')
    as (xu' & yu' & xl' & yl' & -> & Hxu & Hyu).
  cbn [fst snd].
  replace (Z.to_nat num_points - 1)%nat with (List.length x') by lia.
  split.
  - rewrite <- Hxu. apply nth_error_rev_last.
  - rewrite <- Hyu. apply nth_error_rev_last.
Qed.

(** A concrete instance of X3: NACA 2412 at the default 81 points. *)
Lemma X3_witness :
  exists x_coords y_coords header_info,
    generate_naca_4digit (fun _ _ => EmptyString) "2412" 81
    = Ok (x_coords, y_coords, header_info) /\
    nth_error x_coords (Z.to_nat 81 - 1) = Some 0%R /\
    nth_error y_coords (Z.to_nat 81 - 1) = Some 0%R.
Proof.
  apply (X3_leading_edge_point_is_origin (fun _ _ => EmptyString) "2412" 81).
  - split; reflexivity.
  - lia.
Defined.

(** X6.  For a cambered section ([0 < m], [0 < p < 1]) the camber line is 0
    at the leading edge, reaches the maximum camber [m] with zero slope at
    [x = p], and is 0 again at the trailing edge [x = 1]; the slopes at the
    two ends are [2m/p] and [-2m/(1-p)]. *)
Theorem X6_camber_line_at_leading_edge_crest_trailing_edge (m p : R) :
  (0 < m)%R -> (0 < p < 1)%R ->
  camber m p [0; p; 1]%R
  = ([0; m; 0]%R, [2 * m / p; 0; - (2 * m / (1 - p))]%R).
Proof.
  intros Hm [Hp0 Hp1]. unfold camber.
  rewrite (Rltb_lt_true 0 m Hm), (Rltb_lt_true 0 p Hp0). simpl.
  rewrite (Rleb_le_true 0 p), (Rleb_le_true p p), (Rleb_gt_false 1 p) by lra.
  rewrite (Rltb_ge_false p 0), (Rltb_ge_false p p), (Rltb_lt_true p 1) by lra.
  f_equal; repeat f_equal; field; lra.
Qed.

(** A concrete instance of X6: m = 0.02, p = 0.4 (NACA 24xx). *)
Lemma X6_witness :
  camber 0.02 0.4 [0; 0.4; 1]%R
  = ([0; 0.02; 0]%R, [2 * 0.02 / 0.4; 0; - (2 * 0.02 / (1 - 0.4))]%R).
Proof.
  apply (X6_camber_line_at_leading_edge_crest_trailing_edge 0.02 0.4); lra.
Defined.

(** the angle [linspace] gives index [i] among [num] samples of [0, pi] *)
Lemma linspace_beta (num : Z) :
  (2 <= num)%Z ->
  linspace 0 PI num
  = Ok (map (fun i => IZR (Z.of_nat i) * ((PI - 0) / IZR (num - 1)) + 0)%R
          (seq 0 (Z.to_nat num - 1)) ++ [PI]).
Proof.
  intros Hn. unfold linspace.
  destruct (Z.ltb_spec num 0) as [H|_]; [lia|].
  destruct (Z.ltb_spec 0 (num - 1)) as [_|H]; [|lia].
  destruct (Z.ltb_spec 1 num) as [_|H]; [|lia].
  replace (Z.to_nat num) with (S (Z.to_nat num - 1)) at 1 by lia.
  rewrite seq_S, !map_app. cbn [map].
  rewrite removelast_last, !map_map. reflexivity.
Qed.

Lemma beta_range (num : Z) (i : nat) :
  (2 <= num)%Z -> (i < Z.to_nat num - 1)%nat ->
  (0 <= IZR (Z.of_nat i) * ((PI - 0) / IZR (num - 1)) + 0 < PI)%R.
Proof.
  intros Hn Hi.
  assert (Hd : (0 < IZR (num - 1))%R) by (apply IZR_lt; lia).
  assert (Hi0 : (0 <= IZR (Z.of_nat i))%R) by (apply IZR_le; lia).
  assert (Hi1 : (IZR (Z.of_nat i) < IZR (num - 1))%R) by (apply IZR_lt; lia).
  pose proof PI_RGT_0 as Hpi.
  replace (IZR (Z.of_nat i) * ((PI - 0) / IZR (num - 1)) + 0)%R
    with (PI * (IZR (Z.of_nat i) / IZR (num - 1)))%R by (field; lra).
  assert (Hq : (0 <= IZR (Z.of_nat i) / IZR (num - 1) < 1)%R).
  { split.
    - apply Rmult_le_pos; [exact Hi0|]. left. now apply Rinv_0_lt_compat.
    - apply Rmult_lt_reg_r with (IZR (num - 1)); [exact Hd|].
      unfold Rdiv. rewrite Rmult_assoc, Rinv_l by lra. lra. }
  split; nra.
Qed.

Lemma beta_increasing (num : Z) (i j : nat) :
  (2 <= num)%Z -> (i < j)%nat ->
  (IZR (Z.of_nat i) * ((PI - 0) / IZR (num - 1)) + 0
   < IZR (Z.of_nat j) * ((PI - 0) / IZR (num - 1)) + 0)%R.
Proof.
  intros Hn Hij.
  assert (Hd : (0 < IZR (num - 1))%R) by (apply IZR_lt; lia).
  assert (Hlt : (IZR (Z.of_nat i) < IZR (Z.of_nat j))%R) by (apply IZR_lt; lia).
  pose proof PI_RGT_0 as Hpi.
  assert (Hs : (0 < (PI - 0) / IZR (num - 1))%R).
  { apply Rmult_lt_0_compat; [lra|]. now apply Rinv_0_lt_compat. }
  nra.
Qed.

Lemma sorted_map_seq (g : nat -> R) (bound : nat) :
  (forall i j, (i < j)%nat -> (j < bound)%nat -> (g i < g j)%R) ->
  forall start len, (start + len <= bound)%nat ->
    StronglySorted Rlt (map g (seq start len)).
Proof.
  intros Hg start len. revert start.
  induction len as [|len IH]; intros start Hb; simpl; constructor.
  - apply IH. lia.
  - apply List.Forall_forall. intros v Hv.
    apply List.in_map_iff in Hv as (j & <- & Hj).
    apply in_seq in Hj. apply Hg; lia.
Qed.

Lemma sorted_snoc (l : list R) (e : R) :
  StronglySorted Rlt l -> Forall (fun v => (v < e)%R) l ->
  StronglySorted Rlt (l ++ [e]).
Proof.
  induction 1 as [|a l Hs IH Ha]; intros Hall; simpl.
  - repeat constructor.
  - inversion Hall as [|? ? Hae Hle]; subst.
    constructor; [now apply IH|].
    apply Forall_app. split; [exact Ha|]. repeat constructor. exact Hae.
Qed.

(** From two samples on, the stations are the cosine-spaced values at the
    angles of [linspace], closed by the trailing edge [x = 1]. *)
Lemma stations_big (num_points : Z) :
  (2 <= num_points)%Z ->
  stations num_points
  = Ok (map (fun i => 0.5 * (1 - cos (IZR (Z.of_nat i)
                           * ((PI - 0) / IZR (num_points - 1)) + 0)))%R
          (seq 0 (Z.to_nat num_points - 1)) ++ [1%R]).
Proof.
  intros Hbig. unfold stations. rewrite (linspace_beta num_points Hbig).
  simpl. rewrite map_app, map_map. cbn [map]. rewrite cos_PI.
  do 3 f_equal. lra.
Qed.

(** X4.  The stations of [num_points >= 0] samples: as many as asked for,
    each within [0, 1], strictly increasing, starting at the leading edge
    [x = 0] and, from two samples on, ending at the trailing edge [x = 1]. *)
Theorem X4_stations_increase_from_0_to_1 (num_points : Z) :
  (0 <= num_points)%Z ->
  exists x,
    stations num_points = Ok x /\
    List.length x = Z.to_nat num_points /\
    Forall (fun v => (0 <= v <= 1)%R) x /\
    StronglySorted Rlt x /\
    (1 <= num_points -> hd_error x = Some 0%R)%Z /\
    (2 <= num_points -> List.last x 0%R = 1%R)%Z.
Proof.
  intros Hn.
  destruct (stations_length num_points Hn) as (x & Hx & Hlen).
  exists x. split; [exact Hx|]. split; [exact Hlen|].
  assert (Hbound : Forall (fun v => (0 <= v <= 1)%R) x).
  { unfold stations in Hx.
    destruct (linspace 0 PI num_points) as [beta|e]; [|discriminate Hx].
    simpl in Hx. injection Hx as <-.
    apply List.Forall_forall. intros v Hv.
    apply List.in_map_iff in Hv as (b & <- & _).
    pose proof (COS_bound b). lra. }
  split; [exact Hbound|].
  assert (Hhead : (1 <= num_points)%Z -> hd_error x = Some 0%R).
  { intros H1. destruct (stations_head num_points H1) as (x' & Hx').
    rewrite Hx in Hx'. injection Hx' as ->. reflexivity. }
  destruct (Z.lt_ge_cases num_points 2) as [Hsmall|Hbig].
  - split; [|split; [exact Hhead|lia]].
    destruct x as [|a [|b x]]; simpl in Hlen; try lia; repeat constructor.
  - assert (Hxeq : x = map (fun i => 0.5 * (1 - cos (IZR (Z.of_nat i)
                                * ((PI - 0) / IZR (num_points - 1)) + 0)))%R
                         (seq 0 (Z.to_nat num_points - 1)) ++ [1%R]).
    { rewrite (stations_big num_points Hbig) in Hx. now injection Hx. }
    split; [|split; [exact Hhead|]]; rewrite Hxeq.
    + apply sorted_snoc.
      * apply (sorted_map_seq _ (Z.to_nat num_points - 1)); [|lia].
        intros i j Hij Hj.
        destruct (beta_range num_points i Hbig ltac:(lia)) as [Hi0 Hi1].
        destruct (beta_range num_points j Hbig Hj) as [Hj0 Hj1].
        pose proof (beta_increasing num_points i j Hbig Hij) as Hlt.
        pose proof (cos_decreasing_1 _ _ Hi0 (Rlt_le _ _ Hi1) Hj0
                      (Rlt_le _ _ Hj1) Hlt).
        lra.
      * apply List.Forall_forall. intros v Hv.
        apply List.in_map_iff in Hv as (i & <- & Hi). apply in_seq in Hi.
        destruct (beta_range num_points i Hbig ltac:(lia)) as [Hi0 Hi1].
        pose proof (cos_decreasing_1 _ _ Hi0 (Rlt_le _ _ Hi1)
                      (Rlt_le _ _ PI_RGT_0) (Rle_refl PI) Hi1) as Hc.
        rewrite cos_PI in Hc. lra.
    + intros _. apply last_last.
Qed.

(** A concrete instance of X4: the default 81 samples. *)
Lemma X4_witness :
  exists x,
    stations 81 = Ok x /\
    List.length x = Z.to_nat 81 /\
    Forall (fun v => (0 <= v <= 1)%R) x /\
    StronglySorted Rlt x /\
    (1 <= 81 -> hd_error x = Some 0%R)%Z /\
    (2 <= 81 -> List.last x 0%R = 1%R)%Z.
Proof. apply (X4_stations_increase_from_0_to_1 81). lia. Defined.

Lemma stations_ends (num_points : Z) :
  (2 <= num_points)%Z ->
  exists inner, stations num_points = Ok (0%R :: inner ++ [1%R]).
Proof.
  intros Hbig.
  destruct (stations_head num_points ltac:(lia)) as (x' & Hx).
  pose proof (stations_big num_points Hbig) as Hx2. rewrite Hx in Hx2.
  injection Hx2 as Hx2.
  destruct (Z.to_nat num_points - 1)%nat as [|k] eqn:Hk; [lia|].
  simpl in Hx2. injection Hx2 as _ ->.
  rewrite Hx. eexists. reflexivity.
Qed.

Lemma yt_trailing_edge (t : R) : yt t 1 = (0.0105 * t)%R.
Proof. unfold yt. rewrite sqrt_1, !pow1. lra. Qed.

(** X5.  A symmetric section ([m = 0] or [p = 0]) has an open trailing
    edge: with at least two points, the output starts at [(1, 0.0105 t)] and
    ends at [(1, -0.0105 t)], a gap of [0.021 t] at [x = 1]. *)
Theorem X5_symmetric_section_open_trailing_edge
    (format_f : nat -> R -> string) (naca_code : string) (num_points : Z)
    (m p t : R) :
  valid_code naca_code ->
  (2 <= num_points)%Z ->
  naca_parameters naca_code = Ok (m, p, t) ->
  m = 0%R \/ p = 0%R ->
  exists x_coords y_coords header_info,
    generate_naca_4digit format_f naca_code num_points
    = Ok (x_coords, y_coords, header_info) /\
    hd_error x_coords = Some 1%R /\
    hd_error y_coords = Some (0.0105 * t)%R /\
    List.last x_coords 0%R = 1%R /\
    List.last y_coords 0%R = (- (0.0105 * t))%R.
Proof.
  intros Hcode Hn Hpar Hsym.
  destruct (valid_code_inv naca_code Hcode)
    as (c0 & c1 & c2 & c3 & Hshape & Hdigit & _).
  destruct (stations_ends num_points Hn) as (inner & Hx).
  destruct (generate_ok format_f naca_code num_points m p t _
              (proj1 Hcode) Hdigit Hpar Hx) as [h ->].
  eexists _, _, _. split; [reflexivity|].
  unfold surfaces. rewrite (camber_symmetric m p _ Hsym).
  rewrite upper_surface_symmetric, lower_surface_symmetric
    by apply length_map.
  cbn [fst snd tl map]. rewrite !map_app. cbn [map rev].
  rewrite !rev_app_distr. cbn [rev app hd_error].
  rewrite yt_trailing_edge.
  repeat split.
  - rewrite !app_comm_cons, !app_assoc. apply last_last.
  - rewrite !app_comm_cons, !app_assoc. apply last_last.
Qed.

(** A concrete instance of X5: NACA 0012 at the default 81 points. *)
Lemma X5_witness :
  exists x_coords y_coords header_info,
    generate_naca_4digit (fun _ _ => EmptyString) "0012" 81
    = Ok (x_coords, y_coords, header_info) /\
    hd_error x_coords = Some 1%R /\
    hd_error y_coords = Some (0.0105 * (IZR (10 * 1 + 2) / 100))%R /\
    List.last x_coords 0%R = 1%R /\
    List.last y_coords 0%R = (- (0.0105 * (IZR (10 * 1 + 2) / 100)))%R.
Proof.
  apply (X5_symmetric_section_open_trailing_edge (fun _ _ => EmptyString)
           "0012" 81 (IZR 0 / 100) (IZR 0 / 10) (IZR (10 * 1 + 2) / 100)).
  - split; reflexivity.
  - lia.
  - reflexivity.
  - left. lra.
Defined.

End GeneratorExtras.

(* ================================================================== *)
(** * More on the serializer *)
(* ================================================================== *)

Section SerializerExtras.
Import Py NacaGenerator Spec.

Lemma all_chars_app (P : ascii -> bool) (a b : string) :
  all_chars P (a ++ b) = all_chars P a && all_chars P b.
Proof.
  induction a as [|c a IH]; simpl; [reflexivity|].
  rewrite IH. apply andb_assoc.
Qed.

Lemma all_chars_impl (P Q : ascii -> bool) (s : string) :
  (forall c, P c = true -> Q c = true) ->
  all_chars P s = true -> all_chars Q s = true.
Proof.
  intros HPQ. induction s as [|c s IH]; simpl; [reflexivity|].
  intros H. apply andb_true_iff in H as [Hc Hs].
  rewrite (HPQ c Hc), (IH Hs). reflexivity.
Qed.

Lemma contains_char_free (c : ascii) (s : string) :
  contains (String c EmptyString) s = false -> free_of c s = true.
Proof.
  unfold free_of. induction s as [|b s IH]; simpl; [reflexivity|].
  intros H. apply orb_false_iff in H as [Hp Hs].
  rewrite (IH Hs), andb_true_r.
  destruct (ascii_dec c b) as [->|Hne].
  - destruct s; discriminate Hp.
  - apply negb_true_iff, Ascii.eqb_neq. congruence.
Qed.

Lemma split_free (c : ascii) (s : string) :
  free_of c s = true -> split c s = [s].
Proof.
  unfold free_of. induction s as [|b s IH]; simpl; [reflexivity|].
  intros H. apply andb_true_iff in H as [Hb Hs].
  apply negb_true_iff in Hb. rewrite Hb, (IH Hs). reflexivity.
Qed.

Lemma split_app_sep (c : ascii) (a b : string) :
  free_of c a = true ->
  split c (a ++ String c b) = a :: split c b.
Proof.
  unfold free_of. induction a as [|d a IH]; simpl.
  - intros _. rewrite Ascii.eqb_refl. reflexivity.
  - intros H. apply andb_true_iff in H as [Hd Ha].
    apply negb_true_iff in Hd. rewrite Hd, (IH Ha). reflexivity.
Qed.

(** Splitting at the separator undoes joining, for at least one part and
    parts free of the separator. *)
Lemma split_join (c : ascii) (parts : list string) :
  parts <> [] ->
  Forall (fun part => free_of c part = true) parts ->
  split c (join (String c EmptyString) parts) = parts.
Proof.
  unfold join. induction parts as [|a parts IH]; [congruence|].
  intros _ Hall. inversion Hall as [|? ? Ha Hrest]; subst.
  destruct parts as [|b parts].
  - simpl. now apply split_free.
  - change (String.concat (String c EmptyString) (a :: b :: parts))
      with (a ++ String c (String.concat (String c EmptyString)
                             (b :: parts)))%string.
    rewrite (split_app_sep c a _ Ha), IH; [reflexivity|discriminate|exact Hrest].
Qed.

Lemma decimal_digits (n : Z) : all_chars isdecimal (decimal n) = true.
Proof.
  unfold decimal.
  assert (H : forall d, all_chars isdecimal (NilEmpty.string_of_uint d) = true).
  { induction d; simpl; auto. }
  destruct (N.to_uint (Z.to_N n)); try apply H. reflexivity.
Qed.

Lemma zeros_digits (n : nat) : all_chars isdecimal (zeros n) = true.
Proof. induction n; simpl; auto. Qed.

Lemma isdecimal_not_newline (c : ascii) :
  isdecimal c = true -> negb (Ascii.eqb c (ascii_of_nat 10)) = true.
Proof.
  intros H. apply isdecimal_cases in H. simpl in H.
  repeat (destruct H as [<-|H]; [reflexivity|]). destruct H.
Qed.

(** A formatted number, "inf" and "nan" included, holds no line break. *)
Lemma format_f_one_line (prec : nat) (x : float64) :
  free_of (ascii_of_nat 10) (Py.format_f prec x) = true.
Proof.
  destruct x as [x| | |]; try reflexivity.
  assert (Hd : forall s, all_chars isdecimal s = true ->
                         free_of (ascii_of_nat 10) s = true).
  { intros s. apply all_chars_impl, isdecimal_not_newline. }
  unfold free_of in *. unfold Py.format_f, format_fixed, zfill.
  rewrite !all_chars_app.
  rewrite (Hd _ (decimal_digits _)).
  destruct (Qnum x <? 0)%Z; destruct (Nat.eqb prec 0); simpl;
    rewrite ?all_chars_app, ?(Hd _ (decimal_digits _)),
      ?(Hd _ (zeros_digits _)); reflexivity.
Qed.

Lemma standard_line_one_line (pt : float64 * float64) :
  free_of (ascii_of_nat 10) (standard_line Py.format_f pt) = true.
Proof.
  pose proof (format_f_one_line 6 (fst pt)) as H1.
  pose proof (format_f_one_line 6 (snd pt)) as H2.
  unfold free_of in *. unfold standard_line.
  rewrite !all_chars_app, H1, H2. reflexivity.
Qed.

Lemma solidworks_line_one_line (pt : float64 * float64) :
  free_of (ascii_of_nat 10) (solidworks_line Py.format_f pt) = true.
Proof.
  pose proof (format_f_one_line 6 (fst pt)) as H1.
  pose proof (format_f_one_line 6 (snd pt)) as H2.
  unfold free_of in *. unfold solidworks_line.
  rewrite !all_chars_app, H1, H2. reflexivity.
Qed.

(** X7.  Cut at its line breaks, the standard text is the header followed
    by one line per point, and the SolidWorks text one line per point,
    where the points are the pairs of the two arrays up to the end of the
    shorter one; without any point the standard text is the header alone
    and the SolidWorks text is empty.  The header must hold no line break. *)
Theorem X7_text_has_one_line_per_point
    (x_coords y_coords : list float64) (header_info : string) :
  contains newline header_info = false ->
  split (ascii_of_nat 10)
    (format_airfoil_txt Py.format_f x_coords y_coords header_info false)
  = header_info
    :: map (standard_line Py.format_f) (combine x_coords y_coords) /\
  List.length
    (split (ascii_of_nat 10)
       (format_airfoil_txt Py.format_f x_coords y_coords header_info false))
  = S (Nat.min (List.length x_coords) (List.length y_coords)) /\
  match combine x_coords y_coords with
  | [] =>
      format_airfoil_txt Py.format_f x_coords y_coords header_info false
      = header_info /\
      format_airfoil_txt Py.format_f x_coords y_coords header_info true
      = EmptyString
  | points =>
      split (ascii_of_nat 10)
        (format_airfoil_txt Py.format_f x_coords y_coords header_info true)
      = map (solidworks_line Py.format_f) points /\
      List.length
        (split (ascii_of_nat 10)
           (format_airfoil_txt Py.format_f x_coords y_coords header_info
              true))
      = Nat.min (List.length x_coords) (List.length y_coords)
  end.
Proof.
  intros Hheader. apply contains_char_free in Hheader.
  assert (Hstd :
    split (ascii_of_nat 10)
      (format_airfoil_txt Py.format_f x_coords y_coords header_info false)
    = header_info
      :: map (standard_line Py.format_f) (combine x_coords y_coords)).
  { unfold format_airfoil_txt. simpl negb. cbv iota.
    apply (split_join (ascii_of_nat 10)); [discriminate|].
    constructor; [exact Hheader|].
    apply List.Forall_forall. intros l Hl.
    apply List.in_map_iff in Hl as (pt & <- & _).
    apply standard_line_one_line. }
  split; [exact Hstd|]. split.
  { rewrite Hstd. simpl. now rewrite length_map, length_combine. }
  unfold format_airfoil_txt. simpl negb. cbv iota.
  rewrite <- (length_combine x_coords y_coords).
  destruct (combine x_coords y_coords) as [|pt points]; [split; reflexivity|].
  assert (Hsw :
    split (ascii_of_nat 10)
      (join newline (map (solidworks_line Py.format_f) (pt :: points)))
    = map (solidworks_line Py.format_f) (pt :: points)).
  { apply (split_join (ascii_of_nat 10)); [discriminate|].
    apply List.Forall_forall. intros l Hl.
    apply List.in_map_iff in Hl as (q & <- & _).
    apply solidworks_line_one_line. }
  split; [exact Hsw|]. rewrite Hsw. apply length_map.
Qed.

(** A concrete instance of X7: two points, one of them not finite, under a
    one-line header. *)
Lemma X7_witness :
  split (ascii_of_nat 10)
    (format_airfoil_txt Py.format_f [finite 1; nan] [finite 0; pos_inf] "NACA 0012" false)
  = "NACA 0012"
    :: map (standard_line Py.format_f) (combine [finite 1; nan] [finite 0; pos_inf]) /\
  List.length
    (split (ascii_of_nat 10)
       (format_airfoil_txt Py.format_f [finite 1; nan] [finite 0; pos_inf] "NACA 0012" false))
  = S (Nat.min (List.length [finite 1; nan]) (List.length [finite 0; pos_inf])) /\
  match combine [finite 1; nan] [finite 0; pos_inf] with
  | [] =>
      format_airfoil_txt Py.format_f [finite 1; nan] [finite 0; pos_inf] "NACA 0012" false
      = "NACA 0012" /\
      format_airfoil_txt Py.format_f [finite 1; nan] [finite 0; pos_inf] "NACA 0012" true
      = EmptyString
  | points =>
      split (ascii_of_nat 10)
        (format_airfoil_txt Py.format_f [finite 1; nan] [finite 0; pos_inf] "NACA 0012" true)
      = map (solidworks_line Py.format_f) points /\
      List.length
        (split (ascii_of_nat 10)
           (format_airfoil_txt Py.format_f [finite 1; nan] [finite 0; pos_inf] "NACA 0012"
              true))
      = Nat.min (List.length [finite 1; nan]) (List.length [finite 0; pos_inf])
  end.
Proof.
  apply (X7_text_has_one_line_per_point [finite 1; nan] [finite 0; pos_inf] "NACA 0012").
  reflexivity.
Defined.

End SerializerExtras.

(* ================================================================== *)
(** * More on the extractor *)
(* ================================================================== *)

Section ExtractorExtras.
Import Py CsvProcessor Spec.

(** [float(s)] *)
Variable float : string -> result float64.

Lemma substring_all (s : string) : String.substring 0 (String.length s) s = s.
Proof. induction s as [|c s IH]; simpl; [reflexivity|]. now rewrite IH. Qed.

Lemma name_line_rest (line : string) :
  startswith line "Name," = true ->
  split_max "," line 1
  = ["Name"; String.substring 5 (String.length line - 5) line].
Proof.
  intros H. apply prefix_split in H as [rest ->].
  simpl String.length. simpl Nat.sub. rewrite Nat.sub_0_r.
  simpl String.substring. rewrite substring_all.
  destruct rest; reflexivity.
Qed.

(** What one iteration does to the name and to the metadata. *)
Lemma loop_body_name_metadata (st st' : locals) (line : string) :
  loop_body float st line = Ok st' ->
  airfoil_name st'
  = (if startswith (strip line) "Name,"
     then strip (String.substring 5 (String.length (strip line) - 5)
                   (strip line))
     else airfoil_name st) /\
  (metadata st' = metadata st \/
   exists key value,
     metadata st' = <[key := value]> (metadata st) /\
     is_column_label key = false /\
     contains "surface" (lower key) = false).
Proof.
  unfold loop_body.
  destruct (negb (nonempty (strip line)) || (strip line =? ",")%string)
    eqn:Hblank.
  { intros H. injection H as <-.
    destruct (startswith (strip line) "Name,") eqn:Hname; [|auto].
    apply prefix_split in Hname as [rest Hrest]. rewrite Hrest in Hblank.
    discriminate Hblank. }
  destruct (startswith (strip line) "Name,") eqn:Hname.
  { rewrite (name_line_rest _ Hname). simpl.
    intros H. injection H as <-. simpl. auto. }
  destruct (contains "airfoil surface" (lower (strip line))
            || startswith (lower (strip line)) "airfoil surface");
    [intros H; injection H as <-; simpl; auto|].
  destruct (contains "camber line" (lower (strip line)));
    [intros H; injection H as <-; simpl; auto|].
  destruct (contains "chord line" (lower (strip line)));
    [intros H; injection H as <-; simpl; auto|].
  destruct (contains "," (strip line) && negb (in_coordinates st)
            && negb (found_header st)).
  { destruct (split_max "," (strip line) 1) as [|p0 [|p1 [|p2 parts]]];
      simpl; try (intros H; injection H as <-; simpl; auto).
    destruct (nonempty p0 && nonempty p1);
      [|intros H; injection H as <-; simpl; auto].
    destruct (negb (is_column_label (strip p0))
              && negb (contains "surface" (lower (strip p0)))) eqn:Hkey;
      intros H; injection H as <-; simpl; [|auto].
    apply andb_true_iff in Hkey as [Hk1 Hk2].
    apply negb_true_iff in Hk1, Hk2.
    split; [reflexivity|]. right. eauto. }
  destruct (contains "X(" (strip line) && contains "Y(" (strip line)
            || contains "x" (lower (strip line))
               && contains "y" (lower (strip line))).
  { destruct (is_surface (coordinate_section st));
      intros H; injection H as <-; simpl; auto. }
  destruct (is_surface (coordinate_section st) && contains "," (strip line));
    [|intros H; injection H as <-; simpl; auto].
  destruct (split "," (strip line)) as [|x_field [|y_field others]];
    simpl; try (intros H; injection H as <-; simpl; auto).
  unfold parse_row, getitem. simpl.
  destruct (nonempty (strip x_field) && nonempty (strip y_field)
            && negb (contains "X(" (strip x_field)
                     || contains "Y(" (strip x_field)));
    simpl; [|intros H; injection H as <-; simpl; auto].
  destruct (float (strip x_field)) as [x|e]; simpl.
  2:{ destruct (exn_class_eqb (exn_cls e) ValueError); intros H;
        [injection H as <-; simpl; auto|discriminate H]. }
  destruct (float (strip y_field)) as [y|e]; simpl.
  2:{ destruct (exn_class_eqb (exn_cls e) ValueError); intros H;
        [injection H as <-; simpl; auto|discriminate H]. }
  intros H; injection H as <-; simpl; auto.
Qed.

(** X9.  The name a scan ends with is what follows "Name," on the last line
    that starts with it (after stripping), and the name the scan started
    with when there is no such line; no other kind of line touches it. *)
Theorem X9_name_is_taken_from_last_name_line
    (lines : list string) (st st' : locals) :
  for_loop float lines st = Ok st' ->
  airfoil_name st' = last_name lines (airfoil_name st).
Proof.
  revert st. induction lines as [|line lines IH]; intros st Hloop;
    simpl in Hloop.
  - injection Hloop as <-. reflexivity.
  - destruct (loop_body float st line) as [st1|e] eqn:Hbody;
      [|discriminate Hloop].
    simpl in Hloop. rewrite (IH st1 Hloop). simpl.
    destruct (loop_body_name_metadata st st1 line Hbody) as [-> _].
    reflexivity.
Qed.

(** X10.  Every key a scan adds to the metadata is neither one of the
    column labels 'X(mm)', 'Y(mm)', 'X', 'Y' nor a text that contains
    "surface" in any letter case: an entry found after the scan was either
    there before it or has such a key. *)
Theorem X10_metadata_keys_are_no_column_labels
    (lines : list string) (st st' : locals) (key value : string) :
  for_loop float lines st = Ok st' ->
  metadata st' !! key = Some value ->
  metadata st !! key = Some value \/
  (is_column_label key = false /\ contains "surface" (lower key) = false).
Proof.
  revert st. induction lines as [|line lines IH]; intros st Hloop Hget;
    simpl in Hloop.
  - injection Hloop as <-. now left.
  - destruct (loop_body float st line) as [st1|e] eqn:Hbody;
      [|discriminate Hloop].
    simpl in Hloop.
    destruct (IH st1 Hloop Hget) as [Hold|Hnew]; [|now right].
    destruct (loop_body_name_metadata st st1 line Hbody)
      as [_ [Hsame|(k & v & Hins & Hk1 & Hk2)]].
    + left. now rewrite <- Hsame.
    + rewrite Hins in Hold.
      destruct (decide (k = key)) as [->|Hne].
      * right. now split.
      * left. now rewrite lookup_insert_ne in Hold.
Qed.

Lemma flags_step (st st' : locals) (line : string) :
  loop_body float st line = Ok st' ->
  (in_coordinates st = true -> coordinate_section st = Some surface) ->
  (coordinate_section st = Some surface -> found_header st = true) ->
  (in_coordinates st' = true -> coordinate_section st' = Some surface) /\
  (coordinate_section st' = Some surface -> found_header st' = true).
Proof.
  intros H H1 H2. apply loop_body_effect in H.
  inversion H; subst; simpl; auto; split; auto; try discriminate.
  intros Hs. injection Hs as ->. contradiction.
Qed.

(** X8.  Throughout a scan that starts from the initial state, the
    "inside a coordinate block" flag is set only under the "surface" tag,
    and the "surface" tag only after an "airfoil surface" marker has set
    [found_header]; so wherever the metadata test finds [found_header]
    unset, [in_coordinates] is unset as well. *)
Theorem X8_in_coordinates_implies_found_header
    (lines : list string) (st' : locals) :
  for_loop float lines initial = Ok st' ->
  (in_coordinates st' = true -> coordinate_section st' = Some surface) /\
  (coordinate_section st' = Some surface -> found_header st' = true) /\
  (found_header st' = false -> in_coordinates st' = false).
Proof.
  assert (Hgen : forall lines st st',
    for_loop float lines st = Ok st' ->
    (in_coordinates st = true -> coordinate_section st = Some surface) ->
    (coordinate_section st = Some surface -> found_header st = true) ->
    (in_coordinates st' = true -> coordinate_section st' = Some surface) /\
    (coordinate_section st' = Some surface -> found_header st' = true)).
  { clear. induction lines as [|line lines IH]; intros st st' Hloop H1 H2;
      simpl in Hloop.
    - injection Hloop as <-. now split.
    - destruct (loop_body float st line) as [st1|e] eqn:Hbody;
        [|discriminate Hloop].
      simpl in Hloop.
      destruct (flags_step st st1 line Hbody H1 H2) as [H1' H2'].
      exact (IH st1 st' Hloop H1' H2'). }
  intros Hloop.
  destruct (Hgen lines initial st' Hloop) as [H1 H2];
    [discriminate|discriminate|].
  split; [exact H1|]. split; [exact H2|].
  intros Hf. destruct (in_coordinates st') eqn:Hin; [|reflexivity].
  rewrite (H2 (H1 eq_refl)) in Hf. discriminate Hf.
Qed.

(** What a successful call of the extractor went through. *)
Lemma parse_ok_inv (read_text : string -> result string)
    (csv_file_path : string) (x_coords y_coords : list float64)
    (name : string) (meta : gmap string string) :
  parse_airfoil_csv float read_text csv_file_path
  = Ok (x_coords, y_coords, name, meta) ->
  exists content st max_x,
    read_text csv_file_path = Ok content /\
    for_loop float (lines_of content) initial = Ok st /\
    coordinate_data st <> [] /\
    np_max (map fst (coordinate_data st)) = Ok max_x /\
    name = airfoil_name st /\ meta = metadata st /\
    (x_coords, y_coords)
    = (if fltb (finite 10) max_x
       then (map (fun x => truediv x max_x) (map fst (coordinate_data st)),
             map (fun y => truediv y max_x) (map snd (coordinate_data st)))
       else (map fst (coordinate_data st), map snd (coordinate_data st))).
Proof.
  intros H. unfold parse_airfoil_csv, parse_body in H.
  destruct (read_text csv_file_path) as [content|e] eqn:Hread;
    [|discriminate H].
  cbv beta iota delta [bind] in H.
  destruct (for_loop float _ initial) as [st|e] eqn:Hloop;
    [|discriminate H].
  cbv beta iota in H.
  destruct (coordinate_data st) as [|c cs] eqn:Hcs; [discriminate H|].
  simpl np_max in H. cbv beta iota in H.
  exists content, st. eexists.
  split; [reflexivity|]. split; [exact Hloop|].
  rewrite Hcs. split; [discriminate|]. split; [reflexivity|].
  destruct (fltb (finite 10) _); simpl in H; injection H as <- <- <- <-;
    repeat split.
Qed.

(** X11.  Whatever the extractor returns is well formed: at least one
    point, as many y as x values, and no x above 10 (a larger finite maximum
    has been scaled down to 1), unless one of the returned x values is NaN,
    which is what a row "nan" or "inf" leads to. *)
Theorem X11_extractor_result_is_well_formed
    (read_text : string -> result string) (csv_file_path : string)
    (x_coords y_coords : list float64) (name : string)
    (meta : gmap string string) :
  parse_airfoil_csv float read_text csv_file_path
  = Ok (x_coords, y_coords, name, meta) ->
  x_coords <> [] /\
  List.length x_coords = List.length y_coords /\
  (In nan x_coords \/ Forall (fun x => fle x (finite 10)) x_coords).
Proof.
  intros H.
  destruct (parse_ok_inv read_text csv_file_path _ _ _ _ H)
    as (content & st & max_x & _ & _ & Hne & Hmax & _ & _ & Hxy).
  assert (Hshape : x_coords <> [] /\
                   List.length x_coords = List.length y_coords).
  { destruct (fltb (finite 10) max_x); injection Hxy as -> ->;
      rewrite !length_map;
      (split; [destruct (coordinate_data st); [contradiction|discriminate]
              |reflexivity]). }
  destruct Hshape as [Hx Hlen]. split; [exact Hx|]. split; [exact Hlen|].
  pose proof (np_max_nan _ _ Hmax) as Hnan.
  pose proof (np_max_spec _ _ Hmax) as Hspec.
  destruct max_x as [q| | |].
  - destruct Hspec as [_ Hall]; [discriminate|].
    right. simpl fltb in Hxy. destruct (Qltb 10 q) eqn:Hgt;
      injection Hxy as -> ->.
    + apply Qltb_lt in Hgt.
      assert (Hpos : (0 < q)%Q)
        by (eapply Qlt_trans; [|exact Hgt]; reflexivity).
      apply List.Forall_forall. intros v Hv.
      apply List.in_map_iff in Hv as (x & <- & Hxin).
      rewrite List.Forall_forall in Hall. specialize (Hall x Hxin).
      destruct x as [p| | |]; simpl in Hall; try contradiction.
      * rewrite (truediv_finite p q Hpos). simpl.
        rewrite Qred_correct. apply Qle_trans with 1%Q; [|discriminate].
        apply Qle_shift_div_r; [exact Hpos|]. now rewrite Qmult_1_l.
      * simpl. destruct (Qltb q 0) eqn:Hq0; [|exact I].
        apply Qltb_lt in Hq0. exfalso.
        apply (Qlt_irrefl q). now apply Qlt_trans with 0%Q.
    + apply Qltb_ge in Hgt.
      eapply List.Forall_impl; [|exact Hall].
      intros v Hv. simpl in Hv. now apply fle_trans with (finite q).
  - left. injection Hxy as -> _.
    destruct Hspec as [Hin _]; [discriminate|].
    apply List.in_map_iff. exists pos_inf. split; [reflexivity|exact Hin].
  - destruct Hspec as [_ Hall]; [discriminate|].
    right. injection Hxy as -> _.
    eapply List.Forall_impl; [|exact Hall].
    intros v Hv. simpl in Hv. now apply fle_trans with neg_inf.
  - left. injection Hxy as -> _. now apply Hnan.
Qed.

End ExtractorExtras.

Section ExtractorExtrasWitnesses.
Import Py CsvProcessor Spec.

(** A concrete instance of X8: a scan that has entered a coordinate block. *)
Lemma X8_witness :
  (in_coordinates
     (Locals "Unknown Airfoil" ∅ [] true (Some surface) true) = true ->
   coordinate_section
     (Locals "Unknown Airfoil" ∅ [] true (Some surface) true)
   = Some surface) /\
  (coordinate_section
     (Locals "Unknown Airfoil" ∅ [] true (Some surface) true) = Some surface ->
   found_header (Locals "Unknown Airfoil" ∅ [] true (Some surface) true)
   = true) /\
  (found_header (Locals "Unknown Airfoil" ∅ [] true (Some surface) true)
   = false ->
   in_coordinates (Locals "Unknown Airfoil" ∅ [] true (Some surface) true)
   = false).
Proof.
  apply (X8_in_coordinates_implies_found_header Py.float
           ["Airfoil surface,"; "X(mm),Y(mm)"]).
  vm_compute. reflexivity.
Defined.

(** A concrete instance of X9: two name lines, the second one wins. *)
Lemma X9_witness :
  airfoil_name
    (Locals "NACA 2412" ∅ [] false (Some surface) true)
  = last_name ["Name,Clark Y"; "Airfoil surface,"; " Name, NACA 2412 "]
      (airfoil_name initial).
Proof.
  apply (X9_name_is_taken_from_last_name_line Py.float
           ["Name,Clark Y"; "Airfoil surface,"; " Name, NACA 2412 "]
           initial).
  vm_compute. reflexivity.
Defined.

(** A concrete instance of X10: a metadata line and two header-like lines. *)
Lemma X10_witness :
  metadata initial !! "Chord(mm)" = Some "100" \/
  (is_column_label "Chord(mm)" = false /\
   contains "surface" (lower "Chord(mm)") = false).
Proof.
  apply (X10_metadata_keys_are_no_column_labels Py.float
           ["Chord(mm),100"; "X,Y"; "Surface finish,rough"] initial
           (Locals "Unknown Airfoil" (<["Chord(mm)" := "100"]> ∅) []
              false None false)).
  - vm_compute. reflexivity.
  - vm_compute. reflexivity.
Defined.

(** A concrete instance of X11: one row in millimetres. *)
Lemma X11_witness :
  [finite 1] <> [] /\
  List.length [finite 1] = List.length [finite (1 # 20)] /\
  (In nan [finite 1] \/ Forall (fun x => fle x (finite 10)) [finite 1]).
Proof.
  apply (X11_extractor_result_is_well_formed Py.float
           (fun _ => Ok ("Airfoil surface" ++ newline ++ "200,10")%string)
           "airfoil.csv" [finite 1] [finite (1 # 20)] "Unknown Airfoil" ∅).
  vm_compute. reflexivity.
Defined.

End ExtractorExtrasWitnesses.

(* ================================================================== *)
(** * More on the normalizer *)
(* ================================================================== *)

Section NormalizerExtras.
Import Py CsvProcessor Spec.

(** A list already in order is left as it is by the sort. *)
Lemma sort_sorted_id {A} (key : A -> float64) (reverse : bool)
    (l : list A) :
  StronglySorted (in_order key reverse) l -> sort key reverse l = l.
Proof.
  induction 1 as [|x l Hs IH Hx]; simpl; [reflexivity|].
  rewrite IH. destruct l as [|y l]; [reflexivity|]. simpl.
  inversion Hx as [|? ? Hxy _]; subst.
  replace (precedes key reverse y x) with false; [reflexivity|].
  symmetry. unfold precedes, in_order in *.
  destruct reverse; now apply fle_fltb.
Qed.

(** X12.  A sequence that is already in canonical order is returned
    unchanged: when its points up to the midpoint index are in descending x
    order, the others in ascending x order ([<=] on floats, which no NaN
    satisfies), and the two x values at the junction are not within 1e-6 of
    each other (or there is no second part). *)
Theorem X12_normalize_keeps_canonical_order
    (c : float64 * float64) (coords : list (float64 * float64)) :
  StronglySorted (fun a b => fle (fst b) (fst a))
    (firstn (S (List.length (c :: coords) / 2)) (c :: coords)) ->
  StronglySorted (fun a b => fle (fst a) (fst b))
    (skipn (S (List.length (c :: coords) / 2)) (c :: coords)) ->
  ~ coincide (firstn (S (List.length (c :: coords) / 2)) (c :: coords))
             (skipn (S (List.length (c :: coords) / 2)) (c :: coords)) ->
  process_coordinates_for_output (map fst (c :: coords)) (map snd (c :: coords))
  = Ok (map fst (c :: coords), map snd (c :: coords)).
Proof.
  intros Hup Hlow Hgap. rewrite process_nonempty. unfold normalized.
  rewrite (sort_sorted_id fst true _ Hup), (sort_sorted_id fst false _ Hlow).
  destruct (drop_duplicate_cases
              (firstn (S (List.length (c :: coords) / 2)) (c :: coords))
              (skipn (S (List.length (c :: coords) / 2)) (c :: coords)))
    as [[Hco _]|[_ ->]]; [contradiction|].
  rewrite firstn_skipn. reflexivity.
Qed.

(** A concrete instance of X12: five points around a section. *)
Lemma X12_witness :
  process_coordinates_for_output
    (map fst (point (1, 0)%Q
              :: map point [(1 # 2, 1 # 10); (0, 0); (1 # 2, -1 # 10);
                            (1, 0)]%Q))
    (map snd (point (1, 0)%Q
              :: map point [(1 # 2, 1 # 10); (0, 0); (1 # 2, -1 # 10);
                            (1, 0)]%Q))
  = Ok (map fst (point (1, 0)%Q
                 :: map point [(1 # 2, 1 # 10); (0, 0); (1 # 2, -1 # 10);
                               (1, 0)]%Q),
        map snd (point (1, 0)%Q
                 :: map point [(1 # 2, 1 # 10); (0, 0); (1 # 2, -1 # 10);
                               (1, 0)]%Q)).
Proof.
  apply (X12_normalize_keeps_canonical_order (point (1, 0)%Q)
           (map point [(1 # 2, 1 # 10); (0, 0); (1 # 2, -1 # 10);
                       (1, 0)]%Q)).
  - repeat constructor; discriminate.
  - repeat constructor; discriminate.
  - intros (l0 & u & H1 & H2 & H3). vm_compute in H1, H2.
    injection H1 as <-. injection H2 as <-. vm_compute in H3.
    discriminate H3.
Defined.

(** What the normalizer does with arrays of any two lengths. *)
Lemma process_any_lengths (x0 : float64) (x_coords y_coords : list float64) :
  process_coordinates_for_output (x0 :: x_coords) y_coords
  = match normalized (combine (x0 :: x_coords) y_coords) with
    | [] => Ok (x0 :: x_coords, y_coords)
    | all_coords => Ok (map fst all_coords, map snd all_coords)
    end.
Proof.
  unfold process_coordinates_for_output.
  rewrite separate_midpoint. simpl np_argmin. simpl np_argmax.
  cbv beta iota delta [bind]. unfold normalized.
  destruct (_ ++ _); reflexivity.
Qed.

Lemma normalized_nonempty (c : float64 * float64) (coords : list (float64 * float64)) :
  normalized (c :: coords) <> [].
Proof.
  unfold normalized. intros H. apply app_eq_nil in H as [H _].
  apply (f_equal (@List.length _)) in H. rewrite sort_length in H.
  discriminate H.
Qed.

(** X13.  The normalizer raises exactly when [x_coords] is empty, whatever
    [y_coords] is.  With [x_coords] non-empty and [y_coords] empty it hands
    both arrays back untouched (then of different lengths); otherwise the
    two arrays it returns are equally long, one point per pair of the
    inputs up to the end of the shorter one, less at most one. *)
Theorem X13_normalize_raises_iff_x_is_empty (x_coords y_coords : list float64) :
  ((exists e, process_coordinates_for_output x_coords y_coords = Raise e)
   <-> x_coords = []) /\
  (x_coords <> [] -> y_coords = [] ->
   process_coordinates_for_output x_coords y_coords
   = Ok (x_coords, [])) /\
  (x_coords <> [] -> y_coords <> [] ->
   exists x_out y_out,
     process_coordinates_for_output x_coords y_coords = Ok (x_out, y_out) /\
     List.length x_out = List.length y_out /\
     (List.length x_out
      = Nat.min (List.length x_coords) (List.length y_coords) \/
      S (List.length x_out)
      = Nat.min (List.length x_coords) (List.length y_coords))).
Proof.
  destruct x_coords as [|x0 x_coords].
  { split; [|split]; try congruence.
    split; [reflexivity|]. intros _. eexists. reflexivity. }
  rewrite process_any_lengths.
  split; [|split].
  - split; [|discriminate].
    intros [e He]. destruct (normalized _); discriminate He.
  - intros _ ->. reflexivity.
  - intros _ Hy. destruct y_coords as [|y0 y_coords]; [contradiction|].
    pose proof (normalized_perm (combine (x0 :: x_coords) (y0 :: y_coords)))
      as Hperm.
    rewrite <- (length_combine (x0 :: x_coords) (y0 :: y_coords)).
    destruct (normalized _) as [|a all_coords] eqn:Hn.
    + simpl combine in Hn. now apply normalized_nonempty in Hn.
    + eexists _, _. split; [reflexivity|]. rewrite !length_map.
      split; [reflexivity|].
      destruct Hperm as [Hp|[d Hp]]; apply Permutation_length in Hp;
        [left|right]; exact Hp.
Qed.

End NormalizerExtras.

(* ================================================================== *)
(** * More on the request layer and on the file converter *)
(* ================================================================== *)

Section PipelineExtras.
Import Py CsvProcessor Routes Spec.

(** What the extractor returns is a non-empty sequence of pairs. *)
Lemma parse_ok_pairs (float : string -> result float64)
    (read_text : string -> result string) (csv_file_path : string)
    (x_coords y_coords : list float64) (name : string)
    (meta : gmap string string) :
  parse_airfoil_csv float read_text csv_file_path
  = Ok (x_coords, y_coords, name, meta) ->
  exists c coords,
    x_coords = map fst (c :: coords) /\ y_coords = map snd (c :: coords).
Proof.
  intros H.
  destruct (parse_ok_inv float read_text csv_file_path _ _ _ _ H)
    as (content & st & max_x & _ & _ & Hne & _ & _ & _ & Hxy).
  destruct (coordinate_data st) as [|c cs]; [contradiction|].
  destruct (fltb (finite 10) max_x); injection Hxy as -> ->.
  - exists (truediv (fst c) max_x, truediv (snd c) max_x),
           (map (fun xy => (truediv (fst xy) max_x, truediv (snd xy) max_x))
              cs).
    simpl. rewrite !map_map. split; reflexivity.
  - exists c, cs. split; reflexivity.
Qed.

(** After a successful extraction the normalizer cannot fail. *)
Lemma parse_then_process (float : string -> result float64)
    (read_text : string -> result string) (csv_file_path : string)
    (x_coords y_coords : list float64) (name : string)
    (meta : gmap string string) :
  parse_airfoil_csv float read_text csv_file_path
  = Ok (x_coords, y_coords, name, meta) ->
  exists x_out y_out,
    process_coordinates_for_output x_coords y_coords = Ok (x_out, y_out) /\
    List.length y_out = List.length x_out /\
    (List.length x_out = List.length x_coords \/
     S (List.length x_out) = List.length x_coords).
Proof.
  intros H.
  destruct (parse_ok_pairs float read_text csv_file_path _ _ _ _ H)
    as (c & coords & -> & ->).
  rewrite process_nonempty. eexists _, _. split; [reflexivity|].
  rewrite !length_map. split; [reflexivity|].
  destruct (normalized_perm (c :: coords)) as [Hp|[d Hp]];
    apply Permutation_length in Hp; [left|right]; exact Hp.
Qed.

(** X14.  Once an upload has been saved and the extractor has returned,
    the request is answered with status 200: the normalizer's [ValueError]
    on an empty sequence cannot occur here.  The answer carries the name
    and the metadata of the extractor, the normalized points rendered as
    [format_airfoil_txt] renders them under that name, and their count,
    which is the number of extracted points or one less. *)
Theorem X14_process_csv_answers_200_after_extraction
    (float : string -> result float64) (save_upload : upload -> result string)
    (read_text : string -> result string)
    (req : request) (file : upload) (temp_path : string)
    (x_coords y_coords : list float64) (name : string)
    (meta : gmap string string) :
  csv_file req = Some file ->
  (filename file =? "")%string = false ->
  save_upload file = Ok temp_path ->
  parse_airfoil_csv float read_text temp_path
  = Ok (x_coords, y_coords, name, meta) ->
  exists x_out y_out,
    process_coordinates_for_output x_coords y_coords = Ok (x_out, y_out) /\
    (List.length x_out = List.length x_coords \/
     S (List.length x_out) = List.length x_coords) /\
    process_csv float save_upload read_text req
    = Response
        (coordinates_payload
           (NacaGenerator.format_airfoil_txt format_f x_out y_out name
              (lower (default "false" (solidworks_format_field req))
               =? "true")%string)
           name
           (if (lower (default "false" (solidworks_format_field req))
                =? "true")%string
            then "solidworks" else "standard")
           (List.length x_out) meta)
        200.
Proof.
  intros Hfile Hname Hsave Hparse.
  destruct (parse_then_process float read_text temp_path _ _ _ _ Hparse)
    as (x_out & y_out & Hproc & _ & Hlen).
  exists x_out, y_out. split; [exact Hproc|]. split; [exact Hlen|].
  unfold process_csv, process_csv_body.
  rewrite Hfile, Hname, Hsave. cbv beta iota delta [bind].
  rewrite Hparse. cbv beta iota. rewrite Hproc. cbv beta iota.
  unfold NacaGenerator.format_airfoil_txt.
  destruct (lower _ =? "true")%string; reflexivity.
Qed.

(** A concrete instance of X14: a two-row upload, SolidWorks format. *)
Lemma X14_witness :
  exists x_out y_out,
    process_coordinates_for_output [finite 1; finite 0] [finite 0; finite 0] = Ok (x_out, y_out) /\
    (List.length x_out = List.length [finite 1; finite 0] \/
     S (List.length x_out) = List.length [finite 1; finite 0]) /\
    process_csv Py.float (fun _ => Ok "upload.csv")
      (fun _ => Ok ("Airfoil surface" ++ newline ++ "1,0" ++ newline
                    ++ "0,0")%string)
      (Request (Some (Upload "wing.csv" "")) (Some "True"))
    = Response
        (coordinates_payload
           (NacaGenerator.format_airfoil_txt format_f x_out y_out
              "Unknown Airfoil"
              (lower (default "false"
                        (solidworks_format_field
                           (Request (Some (Upload "wing.csv" ""))
                              (Some "True"))))
               =? "true")%string)
           "Unknown Airfoil"
           (if (lower (default "false"
                         (solidworks_format_field
                            (Request (Some (Upload "wing.csv" ""))
                               (Some "True"))))
                =? "true")%string
            then "solidworks" else "standard")
           (List.length x_out) ∅)
        200.
Proof.
  apply (X14_process_csv_answers_200_after_extraction Py.float
           (fun _ => Ok "upload.csv")
           (fun _ => Ok ("Airfoil surface" ++ newline ++ "1,0" ++ newline
                         ++ "0,0")%string)
           (Request (Some (Upload "wing.csv" "")) (Some "True"))
           (Upload "wing.csv" "") "upload.csv").
  - reflexivity.
  - reflexivity.
  - reflexivity.
  - vm_compute. reflexivity.
Defined.

(** X15.  [process_csv] answers with status 400 exactly when the request
    has no 'csv_file' entry or the file's name is empty, and then without
    saving or reading anything; every other request is answered with 200 or
    with 500. *)
Theorem X15_process_csv_status_400_iff_no_file
    (float : string -> result float64) (save_upload : upload -> result string)
    (read_text : string -> result string) (req : request) :
  (status (process_csv float save_upload read_text req) = 400%Z
   <-> csv_file req = None \/
       exists file, csv_file req = Some file /\ filename file = EmptyString) /\
  (csv_file req = None ->
   process_csv float save_upload read_text req
   = Response (error_payload "No CSV file uploaded") 400) /\
  (forall file, csv_file req = Some file -> filename file = EmptyString ->
   process_csv float save_upload read_text req
   = Response (error_payload "No file selected") 400) /\
  (status (process_csv float save_upload read_text req) = 200%Z \/
   status (process_csv float save_upload read_text req) = 400%Z \/
   status (process_csv float save_upload read_text req) = 500%Z).
Proof.
  unfold process_csv, process_csv_body.
  destruct (csv_file req) as [file|].
  2:{ simpl. repeat split; auto; try discriminate;
        intros; try discriminate; auto. }
  destruct (String.eqb_spec (filename file) "") as [Hname|Hname].
  { simpl. repeat split; eauto; try discriminate. }
  assert (Hst : forall r : result response,
    (exists resp, r = Ok resp /\ status resp = 200%Z) \/ (exists e, r = Raise e) ->
    status (match r with
            | Ok resp => resp
            | Raise e => Response (error_payload (str e)) 500
            end) = 200%Z \/
    status (match r with
            | Ok resp => resp
            | Raise e => Response (error_payload (str e)) 500
            end) = 500%Z).
  { intros r [(resp & -> & Hs)|(e & ->)]; [left|right]; auto. }
  match goal with
  | |- context [match ?r with Ok r0 => r0 | Raise _ => _ end] =>
      assert (Hr : (exists resp, r = Ok resp /\ status resp = 200%Z)
                   \/ (exists e, r = Raise e))
  end.
  { destruct (save_upload file) as [temp_path|e]; [|right; eauto].
    cbv beta iota delta [bind].
    destruct (parse_airfoil_csv float read_text temp_path)
      as [[[[xs ys] name] meta]|e]; [|right; eauto].
    cbv beta iota.
    destruct (process_coordinates_for_output xs ys) as [[xp yp]|e];
      [|right; eauto].
    left. eexists. split; reflexivity. }
  specialize (Hst _ Hr).
  repeat split.
  - intros H400. destruct Hst as [H|H]; rewrite H in H400; discriminate H400.
  - intros [H|(f & Hf & Hn)]; [discriminate H|].
    injection Hf as <-. contradiction.
  - discriminate.
  - intros f Hf Hn. injection Hf as <-. contradiction.
  - destruct Hst as [H|H]; auto.
Qed.

Lemma nonempty_false (s : string) : nonempty s = false <-> s = EmptyString.
Proof.
  unfold nonempty. rewrite negb_false_iff. apply String.eqb_eq.
Qed.

(** X16.  [generate_naca], with 'naca_code' defaulting to "2412": the
    answer has status 400 exactly when the code is empty, not four
    characters long, or fails [isdigit]; a code of four decimal digits is
    answered with status 200, the name "NACA " followed by the code, and a
    point count of 161; a four-character code that passes [isdigit] without
    being four decimal digits gets past the check and is answered with
    status 500. *)
Theorem X16_generate_naca_status_by_code
    (format_f : nat -> R -> string) (data : naca_request) :
  (naca_status (generate_naca format_f data) = 400%Z
   <-> default "2412" (naca_code_field data) = EmptyString \/
       String.length (default "2412" (naca_code_field data)) <> 4%nat \/
       isdigit (default "2412" (naca_code_field data)) = false) /\
  (NacaGenerator.valid_code (default "2412" (naca_code_field data)) ->
   exists text,
     generate_naca format_f data
     = NacaResponse
         (naca_coordinates text
            ("NACA " ++ default "2412" (naca_code_field data))%string
            (if default false (naca_solidworks_format data)
             then "solidworks" else "standard")
            161)
         200) /\
  (String.length (default "2412" (naca_code_field data)) = 4%nat ->
   isdigit (default "2412" (naca_code_field data)) = true ->
   ~ NacaGenerator.valid_code (default "2412" (naca_code_field data)) ->
   naca_status (generate_naca format_f data) = 500%Z).
Proof.
  unfold generate_naca, generate_naca_body.
  set (code := default "2412" (naca_code_field data)).
  pose proof (generate_cases format_f code 81) as Hcases.
  destruct (nonempty code) eqn:Hne; simpl negb; simpl orb.
  2:{ apply nonempty_false in Hne. simpl.
      split; [split; auto|]. split.
      - intros [Hlen _]. rewrite Hne in Hlen. discriminate Hlen.
      - intros Hlen. rewrite Hne in Hlen. discriminate Hlen. }
  assert (Hne' : code <> EmptyString).
  { intros H. apply nonempty_false in H. congruence. }
  destruct (Nat.eqb_spec (String.length code) 4) as [Hlen|Hlen];
    simpl negb; simpl orb.
  2:{ simpl. split; [split; auto|]. split.
      - intros [Hl _]. contradiction.
      - intros Hl. contradiction. }
  destruct (isdigit code) eqn:Hdigit; simpl negb; cbv iota.
  2:{ simpl. split; [split; auto|]. split.
      - intros Hv. destruct (valid_code_inv code Hv)
          as (? & ? & ? & ? & _ & Hd & _). congruence.
      - intros _ Hd. discriminate Hd. }
  destruct (NacaGenerator.generate_naca_4digit format_f code 81)
    as [[[xs ys] h]|e] eqn:Hgen; cbv beta iota delta [bind].
  - destruct Hcases as [Hv _].
    destruct (generate_valid format_f code 81 Hv ltac:(lia))
      as (xs' & ys' & h' & Hgen' & Hcount & _).
    rewrite Hgen in Hgen'. injection Hgen' as <- <- <-.
    simpl. split; [|split].
    + split; [discriminate|].
      intros [H|[H|H]]; [contradiction|contradiction|discriminate H].
    + intros _. eexists. rewrite Hcount. reflexivity.
    + intros _ _ Hnv. contradiction.
  - simpl. split; [|split].
    + split; [discriminate|].
      intros [H|[H|H]]; [contradiction|contradiction|discriminate H].
    + intros Hv.
      destruct (generate_valid format_f code 81 Hv ltac:(lia))
        as (xs' & ys' & h' & Hgen' & _).
      rewrite Hgen in Hgen'. discriminate Hgen'.
    + reflexivity.
Qed.

(** X17.  The request layer and [csv_to_txt_format] agree on one and the
    same stored file and format flag.  When [csv_to_txt_format] returns a
    text, [process_csv] answers with status 200 and exactly that text.  When
    it raises, [process_csv] answers with status 500 and the message of that
    exception, except where the exception comes from opening the output
    file, a step [process_csv] does not have: then it answers with status
    200 and the text that could not be written. *)
Theorem X17_process_csv_returns_the_converter_text
    (float : string -> result float64) (save_upload : upload -> result string)
    (fs : files) (req : request) (file : upload)
    (temp_path : string) (output_file_path : option string) :
  csv_file req = Some file ->
  (filename file =? "")%string = false ->
  save_upload file = Ok temp_path ->
  match fst (csv_to_txt_format float fs temp_path output_file_path
               (lower (default "false" (solidworks_format_field req))
                =? "true")%string) with
  | Ok text =>
      exists name count meta,
        process_csv float save_upload (read_file fs) req
        = Response
            (coordinates_payload text name
               (if (lower (default "false" (solidworks_format_field req))
                    =? "true")%string
                then "solidworks" else "standard")
               count meta)
            200
  | Raise e =>
      process_csv float save_upload (read_file fs) req
      = Response (error_payload (str e)) 500 \/
      exists path text name count meta,
        output_file_path = Some path /\
        write_file fs path text = Raise e /\
        process_csv float save_upload (read_file fs) req
        = Response
            (coordinates_payload text name
               (if (lower (default "false" (solidworks_format_field req))
                    =? "true")%string
                then "solidworks" else "standard")
               count meta)
            200
  end.
Proof.
  intros Hfile Hname Hsave.
  unfold process_csv, process_csv_body, csv_to_txt_format.
  rewrite Hfile, Hname, Hsave. cbv beta iota delta [bind].
  destruct (parse_airfoil_csv float (read_file fs) temp_path)
    as [[[[xs ys] name] meta]|e]; [|left; reflexivity].
  cbv beta iota.
  destruct (process_coordinates_for_output xs ys) as [[xp yp]|e];
    [|left; reflexivity].
  cbv beta iota zeta.
  unfold NacaGenerator.solidworks_line, NacaGenerator.standard_line.
  destruct output_file_path as [path|].
  2:{ destruct (lower _ =? "true")%string; simpl negb; cbv iota;
        eexists _, _, _; reflexivity. }
  destruct (nonempty path).
  2:{ destruct (lower _ =? "true")%string; simpl negb; cbv iota;
        eexists _, _, _; reflexivity. }
  destruct (lower _ =? "true")%string; simpl negb; cbv iota;
    match goal with
    | |- context [write_file fs path ?content] =>
        destruct (write_file fs path content) as [fs'|e] eqn:Hw
    end; simpl fst;
    try (eexists _, _, _; reflexivity);
    right; eexists path, _, _, _, _;
    (split; [reflexivity|]); (split; [exact Hw|]); reflexivity.
Qed.

(** A concrete instance of X17: a stored two-row file, converted into a
    directory that does not exist. *)
Lemma X17_witness :
  match fst (csv_to_txt_format Py.float
               (Files
                  (<["upload.csv" := ("Airfoil surface" ++ newline ++ "1,0"
                                      ++ newline ++ "0,0")%string]> ∅)
                  (<["out/wing.txt" :=
                       Exn OSError
                         "[Errno 2] No such file or directory: 'out/wing.txt'"]>
                     ∅))
               "upload.csv" (Some "out/wing.txt")
               (lower (default "false"
                         (solidworks_format_field
                            (Request (Some (Upload "wing.csv" "")) None)))
                =? "true")%string) with
  | Ok text =>
      exists name count meta,
        process_csv Py.float (fun _ => Ok "upload.csv")
          (read_file
             (Files
                (<["upload.csv" := ("Airfoil surface" ++ newline ++ "1,0"
                                    ++ newline ++ "0,0")%string]> ∅)
                (<["out/wing.txt" :=
                     Exn OSError
                       "[Errno 2] No such file or directory: 'out/wing.txt'"]>
                   ∅)))
          (Request (Some (Upload "wing.csv" "")) None)
        = Response
            (coordinates_payload text name
               (if (lower (default "false"
                             (solidworks_format_field
                                (Request (Some (Upload "wing.csv" ""))
                                   None)))
                    =? "true")%string
                then "solidworks" else "standard")
               count meta)
            200
  | Raise e =>
      process_csv Py.float (fun _ => Ok "upload.csv")
        (read_file
           (Files
              (<["upload.csv" := ("Airfoil surface" ++ newline ++ "1,0"
                                  ++ newline ++ "0,0")%string]> ∅)
              (<["out/wing.txt" :=
                   Exn OSError
                     "[Errno 2] No such file or directory: 'out/wing.txt'"]>
                 ∅)))
        (Request (Some (Upload "wing.csv" "")) None)
      = Response (error_payload (str e)) 500 \/
      exists path text name count meta,
        Some "out/wing.txt" = Some path /\
        write_file
          (Files
             (<["upload.csv" := ("Airfoil surface" ++ newline ++ "1,0"
                                 ++ newline ++ "0,0")%string]> ∅)
             (<["out/wing.txt" :=
                  Exn OSError
                    "[Errno 2] No such file or directory: 'out/wing.txt'"]>
                ∅))
          path text = Raise e /\
        process_csv Py.float (fun _ => Ok "upload.csv")
          (read_file
             (Files
                (<["upload.csv" := ("Airfoil surface" ++ newline ++ "1,0"
                                    ++ newline ++ "0,0")%string]> ∅)
                (<["out/wing.txt" :=
                     Exn OSError
                       "[Errno 2] No such file or directory: 'out/wing.txt'"]>
                   ∅)))
          (Request (Some (Upload "wing.csv" "")) None)
        = Response
            (coordinates_payload text name
               (if (lower (default "false"
                             (solidworks_format_field
                                (Request (Some (Upload "wing.csv" ""))
                                   None)))
                    =? "true")%string
                then "solidworks" else "standard")
               count meta)
            200
  end.
Proof.
  apply (X17_process_csv_returns_the_converter_text Py.float
           (fun _ => Ok "upload.csv")
           (Files
              (<["upload.csv" := ("Airfoil surface" ++ newline ++ "1,0"
                                  ++ newline ++ "0,0")%string]> ∅)
              (<["out/wing.txt" :=
                   Exn OSError
                     "[Errno 2] No such file or directory: 'out/wing.txt'"]>
                 ∅))
           (Request (Some (Upload "wing.csv" "")) None)
           (Upload "wing.csv" "") "upload.csv" (Some "out/wing.txt"));
    reflexivity.
Defined.


End PipelineExtras.

Section OrderExtras.
Import Py CsvProcessor Spec.

(** X19.  A scan only ever appends to the coordinate sequence: the points
    collected before stay where they are, in their order, and the lines
    scanned add at most one point each, in the order of the lines. *)
Theorem X19_scan_appends_at_most_one_point_per_line
    (float : string -> result float64) (lines : list string) (st st' : locals) :
  for_loop float lines st = Ok st' ->
  exists added,
    coordinate_data st' = coordinate_data st ++ added /\
    (List.length added <= List.length lines)%nat.
Proof.
  revert st. induction lines as [|line lines IH]; intros st Hloop;
    simpl in Hloop.
  - injection Hloop as <-. exists []. rewrite app_nil_r. split; auto.
  - destruct (loop_body float st line) as [st1|e] eqn:Hbody;
      [|discriminate Hloop].
    simpl in Hloop. destruct (IH st1 Hloop) as (added & Heq & Hlen).
    apply loop_body_effect in Hbody.
    assert (H1 : coordinate_data st1 = coordinate_data st \/
                 exists xy, coordinate_data st1 = coordinate_data st ++ [xy]).
    { inversion Hbody; subst; simpl; eauto. }
    destruct H1 as [H1|[xy H1]]; rewrite H1 in Heq.
    + exists added. split; [exact Heq|]. simpl. lia.
    + exists (xy :: added). rewrite <- app_assoc in Heq.
      split; [exact Heq|]. simpl. lia.
Qed.

(** A concrete instance of X19: two rows, one of them unreadable, the
    other one read as NaN. *)
Lemma X19_witness :
  exists added,
    coordinate_data
      (Locals "Unknown Airfoil" ∅ [(finite 1, finite 0); (nan, finite 0)]
         false (Some surface) true)
    = coordinate_data
        (Locals "Unknown Airfoil" ∅ [(finite 1, finite 0)] false
           (Some surface) true)
      ++ added /\
    (List.length added <= List.length ["0.5,n/a"; "nan,0"])%nat.
Proof.
  apply (X19_scan_appends_at_most_one_point_per_line Py.float
           ["0.5,n/a"; "nan,0"]
           (Locals "Unknown Airfoil" ∅ [(finite 1, finite 0)] false
              (Some surface) true)).
  vm_compute. reflexivity.
Defined.

Lemma firstn_app_exact {A} (l1 l2 : list A) (n : nat) :
  List.length l1 = n -> firstn n (l1 ++ l2) = l1 /\ skipn n (l1 ++ l2) = l2.
Proof.
  intros <-. split.
  - rewrite firstn_app, Nat.sub_diag, firstn_all. simpl. apply app_nil_r.
  - rewrite skipn_app, Nat.sub_diag, skipn_all. reflexivity.
Qed.

(** X20.  Normalizing twice is the same as normalizing once, as long as no
    x is NaN and the first pass drops no duplicate leading-edge point. *)
Theorem X20_normalize_twice_when_nothing_dropped
    (c : float64 * float64) (coords : list (float64 * float64)) :
  no_nan_x (c :: coords) ->
  ~ coincide
      (sort fst true
         (firstn (S (List.length (c :: coords) / 2)) (c :: coords)))
      (sort fst false
         (skipn (S (List.length (c :: coords) / 2)) (c :: coords))) ->
  exists x_out y_out,
    process_coordinates_for_output
      (map fst (c :: coords)) (map snd (c :: coords)) = Ok (x_out, y_out) /\
    process_coordinates_for_output x_out y_out = Ok (x_out, y_out).
Proof.
  intros Hnan Hgap. rewrite process_nonempty.
  eexists _, _. split; [reflexivity|].
  unfold normalized.
  set (n := List.length (c :: coords)) in *.
  assert (Hsplit : forall a,
    In a (firstn (S (n / 2)) (c :: coords)) \/
    In a (skipn (S (n / 2)) (c :: coords)) -> isnan (fst a) = false).
  { intros a Ha. apply (proj1 (List.Forall_forall _ _) Hnan).
    rewrite <- (firstn_skipn (S (n / 2)) (c :: coords)).
    now apply in_or_app. }
  assert (Hsu : StronglySorted (in_order fst true)
                  (sort fst true (firstn (S (n / 2)) (c :: coords)))).
  { apply sort_sorted. apply List.Forall_forall. intros a Ha.
    apply Hsplit. now left. }
  assert (Hsl : StronglySorted (in_order fst false)
                  (sort fst false (skipn (S (n / 2)) (c :: coords)))).
  { apply sort_sorted. apply List.Forall_forall. intros a Ha.
    apply Hsplit. now right. }
  set (upper := sort fst true (firstn (S (n / 2)) (c :: coords))) in *.
  set (lower := sort fst false (skipn (S (n / 2)) (c :: coords))) in *.
  destruct (drop_duplicate_cases upper lower) as [[Hco _]|[_ ->]];
    [contradiction|].
  assert (Hn : (S (n / 2) <= n)%nat).
  { unfold n. simpl List.length.
    pose proof (Nat.div_lt (S (List.length coords)) 2 ltac:(lia) ltac:(lia)).
    lia. }
  assert (Hup : List.length upper = S (n / 2)).
  { unfold upper. rewrite sort_length, length_firstn. unfold n in *. lia. }
  assert (Hall : List.length (upper ++ lower) = n).
  { unfold upper, lower. rewrite length_app, !sort_length.
    rewrite <- length_app, firstn_skipn. reflexivity. }
  destruct (upper ++ lower) as [|a rest] eqn:Hcat.
  { unfold n in Hall. discriminate Hall. }
  pose proof (process_nonempty a rest) as Hp.
  unfold normalized in Hp. rewrite Hall in Hp.
  rewrite <- Hcat in Hp.
  destruct (firstn_app_exact upper lower (S (n / 2)) Hup) as [Hf Hs].
  rewrite Hf, Hs in Hp.
  rewrite (sort_sorted_id fst true upper Hsu) in Hp.
  rewrite (sort_sorted_id fst false lower Hsl) in Hp.
  destruct (drop_duplicate_cases upper lower) as [[Hco _]|[_ Hd]];
    [contradiction|].
  rewrite Hd in Hp. rewrite <- Hcat. exact Hp.
Qed.

(** A concrete instance of X20: four points in file order. *)
Lemma X20_witness :
  exists x_out y_out,
    process_coordinates_for_output
      (map fst (point (0, 0)%Q
                :: map point [(1, 0); (1 # 2, 1 # 10); (1 # 2, -1 # 10)]%Q))
      (map snd (point (0, 0)%Q
                :: map point [(1, 0); (1 # 2, 1 # 10); (1 # 2, -1 # 10)]%Q))
    = Ok (x_out, y_out) /\
    process_coordinates_for_output x_out y_out = Ok (x_out, y_out).
Proof.
  apply (X20_normalize_twice_when_nothing_dropped (point (0, 0)%Q)
           (map point [(1, 0); (1 # 2, 1 # 10); (1 # 2, -1 # 10)]%Q)).
  - repeat constructor.
  - intros (l0 & u & H1 & H2 & H3). vm_compute in H1, H2.
    injection H1 as <-. injection H2 as <-. vm_compute in H3.
    discriminate H3.
Defined.

End OrderExtras.
